(** * Budget tracker: the month calendar and the budget accounting engine

    A shallow embedding of [MonthNavigation] and [BudgetCalculator]
    (frontend utilities of the budget tracker) together with the properties
    of the rollover computation.

    Conventions of the embedding.
    - A JavaScript string is a [string]; its characters are compared by
      code, as [===] and [<] do on strings.
    - A JavaScript number that holds an integer is a [Z]; a number that may
      be [NaN] is an [option Z] with [None] for [NaN].  Floating-point
      rounding is not modelled: integers are exact.
    - A monetary amount is a [Z] counting hundredths (amounts carry at most
      two fractional digits), so [5000] stands for 50.00 and [-1] for -0.01.
    - The [Date] object depends on the device (time zone, clock).  What the
      code asks of it is collected in the record [DateEnv]; the engine is
      written over an arbitrary environment and [UTC.device] is one
      concrete device used to run examples.
    - [calculateRolloverAmount] is recursive without a syntactic bound, so
      it takes a [fuel] argument that bounds the number of nested calls and
      returns [None] when the bound is hit. *)

From Stdlib Require Import ZArith List Bool Lia String Ascii DecimalString.
From Stdlib Require Import Permutation.
Import ListNotations.

Open Scope string_scope.
Open Scope Z_scope.

(** ** JavaScript primitives used by the code *)

Module JS.

(** [s.split(sep)] for a one-character separator. *)
Fixpoint split (sep : ascii) (s : string) : list string :=
  match s with
  | EmptyString => [EmptyString]
  | String c rest =>
      if Ascii.eqb c sep then EmptyString :: split sep rest
      else match split sep rest with
           | piece :: pieces => String c piece :: pieces
           | [] => [String c EmptyString]
           end
  end.

(** White space skipped by [parseInt] (the code points below 256). *)
Definition isWhiteSpace (c : ascii) : bool :=
  let n := Z.of_N (N_of_ascii c) in
  ((9 <=? n) && (n <=? 13)) || (n =? 32) || (n =? 160).

Fixpoint trimStart (s : string) : string :=
  match s with
  | String c rest => if isWhiteSpace c then trimStart rest else s
  | EmptyString => EmptyString
  end.

(** Value of a character as a digit in [radix], if it is one. *)
Definition digitValue (radix : Z) (c : ascii) : option Z :=
  let n := Z.of_N (N_of_ascii c) in
  let v := if (48 <=? n) && (n <=? 57) then Some (n - 48)
           else if (97 <=? n) && (n <=? 122) then Some (n - 87)
           else if (65 <=? n) && (n <=? 90) then Some (n - 55)
           else None in
  match v with
  | Some d => if d <? radix then Some d else None
  | None => None
  end.

(** Longest prefix of digits, read left to right; [acc] is the value read
    so far and [seen] tells whether a digit was read. *)
Fixpoint parseDigits (radix : Z) (s : string) (acc : Z) (seen : bool)
  : option Z :=
  match s with
  | EmptyString => if seen then Some acc else None
  | String c rest =>
      match digitValue radix c with
      | Some d => parseDigits radix rest (acc * radix + d) true
      | None => if seen then Some acc else None
      end
  end.

(** [parseInt(s)] with no radix argument: leading white space, an optional
    sign, an optional [0x] prefix that switches to radix 16, then the
    longest prefix of digits; [None] is [NaN]. *)
Definition parseInt (s : string) : option Z :=
  let s := trimStart s in
  let '(sign, s) :=
    match s with
    | String "-" rest => (-1, rest)
    | String "+" rest => (1, rest)
    | _ => (1, s)
    end in
  let '(radix, s) :=
    match s with
    | String "0" (String "x" rest) => (16, rest)
    | String "0" (String "X" rest) => (16, rest)
    | _ => (10, s)
    end in
  match parseDigits radix s 0 false with
  | Some n => Some (sign * n)
  | None => None
  end.

(** [n.toString()] and the conversion of a number inside a template. *)
Definition toString (n : option Z) : string :=
  match n with
  | Some z => NilEmpty.string_of_int (Z.to_int z)
  | None => "NaN"
  end.

Fixpoint repeat (c : ascii) (n : nat) : string :=
  match n with
  | O => EmptyString
  | S n' => String c (repeat c n')
  end.

(** [s.padStart(len, c)] for a one-character filler. *)
Definition padStart (len : nat) (c : ascii) (s : string) : string :=
  repeat c (len - String.length s) ++ s.

(** Arithmetic on numbers that may be [NaN]. *)
Definition add (a b : option Z) : option Z :=
  match a, b with
  | Some x, Some y => Some (x + y)
  | _, _ => None
  end.

Definition sub (a b : option Z) : option Z :=
  match a, b with
  | Some x, Some y => Some (x - y)
  | _, _ => None
  end.

(** [a === n] for a number literal [n]. *)
Definition strictEq (a : option Z) (n : Z) : bool :=
  match a with
  | Some x => x =? n
  | None => false
  end.

(** [a < b] and [a >= b] on numbers: false as soon as one side is [NaN]. *)
Definition lt (a b : option Z) : bool :=
  match a, b with
  | Some x, Some y => x <? y
  | _, _ => false
  end.

Definition ge (a b : option Z) : bool :=
  match a, b with
  | Some x, Some y => y <=? x
  | _, _ => false
  end.

(** The destructuring [const [year, month] = parts].  A missing element is
    [undefined]; both uses of such an element go through a string
    conversion ([parseInt] and templates), where [undefined] reads
    ["undefined"]. *)
Definition element (i : nat) (parts : list string) : string :=
  nth i parts "undefined".

End JS.

(** ** The data model ([types]) *)

Module Transaction.
Record t := mk {
  id : Z;
  device_id : string;
  name : string;
  amount : Z;
  type : string;
  timestamp : string;
  created_at : string;
  updated_at : string;
  username : option string
}.
End Transaction.

Module MonthlyBudget.
Record t := mk {
  id : Z;
  month_year : string;
  budget_amount : Z;
  rollover_enabled : bool;
  created_at : string;
  updated_at : string
}.
End MonthlyBudget.

Module BudgetSummary.
Record t := mk {
  month_year : string;
  budget_amount : Z;
  total_transactions : Z;
  remaining_budget : Z;
  is_over_budget : bool;
  rollover_enabled : bool
}.
End BudgetSummary.

(** ** The [Date] object of the device

    A date is its time value: milliseconds since the epoch, or [None] for an
    invalid date. *)

Record DateEnv := {
  (** [new Date(s).getTime()] *)
  parse : string -> option Z;
  (** [new Date(year, monthIndex, day).getTime()] in the zone of the device *)
  localTime : Z -> Z -> Z -> option Z;
  (** [getFullYear()] and [getMonth()] of a valid date, in local time *)
  fullYear : Z -> Z;
  monthIndex : Z -> Z;
  (** [Date.now()] *)
  now : Z;
  (** [toISOString()] of a valid date *)
  isoString : Z -> string
}.

Module Date.
Section WithDevice.
Variable env : DateEnv.

Definition ofString (s : string) : option Z := parse env s.

Definition ofFields (year month : option Z) (day : Z) : option Z :=
  match year, month with
  | Some y, Some m => localTime env y m day
  | _, _ => None
  end.

Definition getTime (d : option Z) : option Z := d.

Definition getFullYear (d : option Z) : option Z :=
  option_map (fullYear env) d.

Definition getMonth (d : option Z) : option Z :=
  option_map (monthIndex env) d.
End WithDevice.
End Date.

(** ** A concrete device: UTC, ISO timestamps

    Time zone UTC and the proleptic Gregorian calendar of the language
    standard.  [parse] reads the format that [toISOString] writes,
    [YYYY-MM-DDTHH:mm:ss.sssZ], which is the format of the timestamps the
    application stores; any other string is an invalid date here. *)

Module UTC.

Definition msPerDay : Z := 86400000.

(** Days from 1970-01-01 to the given civil date ([m] in 1..12). *)
Definition daysFromCivil (y m d : Z) : Z :=
  let y := if m <=? 2 then y - 1 else y in
  let era := y / 400 in
  let yoe := y - era * 400 in
  let doy := (153 * (if 2 <? m then m - 3 else m + 9) + 2) / 5 + d - 1 in
  let doe := yoe * 365 + yoe / 4 - yoe / 100 + doy in
  era * 146097 + doe - 719468.

(** Civil year and month (1..12) of a day number. *)
Definition civilFromDays (z : Z) : Z * Z :=
  let z := z + 719468 in
  let era := z / 146097 in
  let doe := z - era * 146097 in
  let yoe := (doe - doe / 1460 + doe / 36524 - doe / 146096) / 365 in
  let doy := doe - (365 * yoe + yoe / 4 - yoe / 100) in
  let mp := (5 * doy + 2) / 153 in
  let m := if mp <? 10 then mp + 3 else mp - 9 in
  ((if m <=? 2 then yoe + era * 400 + 1 else yoe + era * 400), m).

Definition isLeap (y : Z) : bool :=
  ((y mod 4 =? 0) && negb (y mod 100 =? 0)) || (y mod 400 =? 0).

Definition daysInMonth (y m : Z) : Z :=
  if m =? 2 then (if isLeap y then 29 else 28)
  else if (m =? 4) || (m =? 6) || (m =? 9) || (m =? 11) then 30
  else 31.

Definition timeClip (t : Z) : option Z :=
  if Z.abs t <=? 8640000000000000 then Some t else None.

(** A string made of decimal digits only, as a number. *)
Definition digits (s : string) : option Z :=
  match s with
  | EmptyString => None
  | _ => if forallb (fun c => match JS.digitValue 10 c with
                              | Some _ => true
                              | None => false
                              end) (list_ascii_of_string s)
         then JS.parseDigits 10 s 0 false
         else None
  end.

Definition field (s : string) (start len : nat) : option Z :=
  digits (substring start len s).

Definition separator (s : string) (pos : nat) (c : ascii) : bool :=
  match get pos s with
  | Some c' => Ascii.eqb c' c
  | None => false
  end.

Definition parseISO (s : string) : option Z :=
  if (String.length s =? 24)%nat
     && separator s 4 "-" && separator s 7 "-" && separator s 10 "T"
     && separator s 13 ":" && separator s 16 ":" && separator s 19 "."
     && separator s 23 "Z"
  then
    match field s 0 4, field s 5 2, field s 8 2,
          field s 11 2, field s 14 2, field s 17 2, field s 20 3 with
    | Some y, Some mo, Some d, Some h, Some mi, Some sec, Some ms =>
        if (1 <=? mo) && (mo <=? 12) && (1 <=? d) && (d <=? daysInMonth y mo)
           && (h <=? 23) && (mi <=? 59) && (sec <=? 59)
        then timeClip (daysFromCivil y mo d * msPerDay
                       + h * 3600000 + mi * 60000 + sec * 1000 + ms)
        else None
    | _, _, _, _, _, _, _ => None
    end
  else None.

(** [new Date(year, monthIndex, day)]: a year in 0..99 means 1900 + year,
    and a month index outside 0..11 carries into the year. *)
Definition makeLocal (year monthIndex day : Z) : option Z :=
  let year := if (0 <=? year) && (year <=? 99) then 1900 + year else year in
  let ym := year + monthIndex / 12 in
  let mn := monthIndex mod 12 in
  timeClip ((daysFromCivil ym (mn + 1) 1 + day - 1) * msPerDay).

Definition pad (len : nat) (n : Z) : string :=
  JS.padStart len "0" (JS.toString (Some n)).

Definition toISO (t : Z) : string :=
  let day := t / msPerDay in
  let ms := t mod msPerDay in
  let '(y, m) := civilFromDays day in
  let d := day - daysFromCivil y m 1 + 1 in
  let year := if (0 <=? y) && (y <=? 9999) then pad 4 y
              else (if y <? 0 then "-" else "+") ++ pad 6 (Z.abs y) in
  year ++ "-" ++ pad 2 m ++ "-" ++ pad 2 d ++ "T"
    ++ pad 2 (ms / 3600000) ++ ":" ++ pad 2 (ms / 60000 mod 60) ++ ":"
    ++ pad 2 (ms / 1000 mod 60) ++ "." ++ pad 3 (ms mod 1000) ++ "Z".

(** The device, with the clock stopped at [clock]. *)
Definition device (clock : Z) : DateEnv := {|
  parse := parseISO;
  localTime := makeLocal;
  fullYear := fun t => fst (civilFromDays (t / msPerDay));
  monthIndex := fun t => snd (civilFromDays (t / msPerDay)) - 1;
  now := clock;
  isoString := toISO
|}.

End UTC.

(** ** The calendar utility: [MonthNavigation] *)

Module MonthNavigation.

Definition getPreviousMonth (monthYear : string) : string :=
  let parts := JS.split "-" monthYear in
  let year := JS.element 0 parts in
  let month := JS.element 1 parts in
  let yearNum := JS.parseInt year in
  let monthNum := JS.parseInt month in
  if JS.strictEq monthNum 1 then
    JS.toString (JS.sub yearNum (Some 1)) ++ "-12"
  else
    year ++ "-" ++ JS.padStart 2 "0" (JS.toString (JS.sub monthNum (Some 1))).

Definition getNextMonth (monthYear : string) : string :=
  let parts := JS.split "-" monthYear in
  let year := JS.element 0 parts in
  let month := JS.element 1 parts in
  let yearNum := JS.parseInt year in
  let monthNum := JS.parseInt month in
  if JS.strictEq monthNum 12 then
    JS.toString (JS.add yearNum (Some 1)) ++ "-01"
  else
    year ++ "-" ++ JS.padStart 2 "0" (JS.toString (JS.add monthNum (Some 1))).

(** The loop of [getNextNMonths]: each round does [months.push(current)]
    and moves [current] to the next month. *)
Fixpoint nextLoop (rounds : nat) (months : list string) (current : string)
  : list string :=
  match rounds with
  | O => months
  | S rounds' =>
      nextLoop rounds' (months ++ [current])%list (getNextMonth current)
  end.

(** [for (let i = 0; i < count; i++)] runs [count] rounds, none when
    [count] is not positive. *)
Definition getNextNMonths (fromMonth : string) (count : Z) : list string :=
  nextLoop (Z.to_nat count) [] fromMonth.

(** The loop of [getLastNMonths]: each round does [months.unshift(current)]
    and moves [current] to the previous month. *)
Fixpoint lastLoop (rounds : nat) (months : list string) (current : string)
  : list string :=
  match rounds with
  | O => months
  | S rounds' => lastLoop rounds' (current :: months) (getPreviousMonth current)
  end.

Definition getLastNMonths (fromMonth : string) (count : Z) : list string :=
  lastLoop (Z.to_nat count) [] fromMonth.

(** The loop of [getMonthsBetween], [while (current <= endMonth)], where
    [<=] compares strings.  [fuel] bounds the number of tests of the
    condition; [None] when the bound is hit. *)
Fixpoint betweenLoop (fuel : nat) (months : list string)
    (current endMonth : string) : option (list string) :=
  match fuel with
  | O => None
  | S fuel' =>
      if String.leb current endMonth then
        betweenLoop fuel' (months ++ [current])%list (getNextMonth current)
          endMonth
      else Some months
  end.

Definition getMonthsBetween (fuel : nat) (startMonth endMonth : string)
  : option (list string) :=
  betweenLoop fuel [] startMonth endMonth.

Section WithDevice.
Variable env : DateEnv.

Definition getCurrentMonth : string :=
  let now := Some (now env) in
  let year := Date.getFullYear env now in
  let month :=
    JS.padStart 2 "0"
      (JS.toString (JS.add (Date.getMonth env now) (Some 1))) in
  JS.toString year ++ "-" ++ month.

Definition isCurrentMonth (monthYear : string) : bool :=
  String.eqb monthYear getCurrentMonth.

(** The comparator of the sort,
    [new Date(a.timestamp).getTime() - new Date(b.timestamp).getTime()]. *)
Definition byTimestamp (a b : Transaction.t) : option Z :=
  JS.sub (Date.getTime (Date.ofString env (Transaction.timestamp a)))
         (Date.getTime (Date.ofString env (Transaction.timestamp b))).

(** [Array.prototype.sort] is stable and reads a [NaN] comparison as 0.
    Insertion from the right puts an element before the first one it
    does not exceed, which keeps equal elements in their order. *)
Fixpoint insertSorted (cmp : Transaction.t -> Transaction.t -> option Z)
    (x : Transaction.t) (sorted : list Transaction.t)
  : list Transaction.t :=
  match sorted with
  | [] => [x]
  | y :: rest =>
      if JS.lt (Some 0) (cmp x y) then y :: insertSorted cmp x rest
      else x :: sorted
  end.

Definition sort (cmp : Transaction.t -> Transaction.t -> option Z)
    (l : list Transaction.t) : list Transaction.t :=
  fold_right (insertSorted cmp) [] l.

Definition getFirstTrackedMonth (transactions : list Transaction.t)
  : string :=
  let currentDate := Some (now env) in
  let year := Date.getFullYear env currentDate in
  let month :=
    JS.padStart 2 "0"
      (JS.toString (JS.add (Date.getMonth env currentDate) (Some 1))) in
  let '(year, month) :=
    if (0 <? Z.of_nat (List.length transactions)) then
      let sortedTransactions := sort byTimestamp transactions in
      match sortedTransactions with
      | firstTransaction :: _ =>
          let firstTransactionDate :=
            Date.ofString env (Transaction.timestamp firstTransaction) in
          (Date.getFullYear env firstTransactionDate,
           JS.padStart 2 "0"
             (JS.toString
                (JS.add (Date.getMonth env firstTransactionDate)
                        (Some 1))))
      | [] => (year, month)
      end
    else (year, month) in
  JS.toString year ++ "-" ++ month.

End WithDevice.

End MonthNavigation.

(** ** The budget accounting engine: [BudgetCalculator]

    The calls to [console.log] write to the console only and are left out. *)

(** Results of a computation that may exhaust its fuel. *)
Definition bind {A B : Type} (m : option A) (k : A -> option B) : option B :=
  match m with
  | Some a => k a
  | None => None
  end.

Notation "x <- m ;; k" := (bind m (fun x => k))
  (at level 61, m at next level, right associativity).

Module BudgetCalculator.

Definition getPreviousMonth (monthYear : string) : string :=
  let parts := JS.split "-" monthYear in
  let year := JS.element 0 parts in
  let month := JS.element 1 parts in
  let yearNum := JS.parseInt year in
  let monthNum := JS.parseInt month in
  if JS.strictEq monthNum 1 then
    JS.toString (JS.sub yearNum (Some 1)) ++ "-12"
  else
    year ++ "-" ++ JS.padStart 2 "0" (JS.toString (JS.sub monthNum (Some 1))).

Definition getNextMonth (monthYear : string) : string :=
  let parts := JS.split "-" monthYear in
  let year := JS.element 0 parts in
  let month := JS.element 1 parts in
  let yearNum := JS.parseInt year in
  let monthNum := JS.parseInt month in
  if JS.strictEq monthNum 12 then
    JS.toString (JS.add yearNum (Some 1)) ++ "-01"
  else
    year ++ "-" ++ JS.padStart 2 "0" (JS.toString (JS.add monthNum (Some 1))).

(** The callback of both [reduce] calls: a withdrawal adds to the amount
    spent, a deposit subtracts from it, any other type leaves it. *)
Definition accumulate (total : Z) (transaction : Transaction.t) : Z :=
  if String.eqb (Transaction.type transaction) "withdraw" then
    total + Transaction.amount transaction
  else if String.eqb (Transaction.type transaction) "deposit" then
    total - Transaction.amount transaction
  else total.

(** [budgets.find(b => b.month_year === monthYear)] *)
Definition findBudget (budgets : list MonthlyBudget.t) (monthYear : string)
  : option MonthlyBudget.t :=
  find (fun b => String.eqb (MonthlyBudget.month_year b) monthYear) budgets.

Section WithDevice.
Variable env : DateEnv.

Definition getTransactionsForMonth (transactions : list Transaction.t)
    (monthYear : string) : list Transaction.t :=
  let parts := JS.split "-" monthYear in
  let year := JS.element 0 parts in
  let month := JS.element 1 parts in
  let startDate :=
    Date.ofFields env (JS.parseInt year)
      (JS.sub (JS.parseInt month) (Some 1)) 1 in
  let endDate :=
    Date.ofFields env (JS.parseInt year) (JS.parseInt month) 1 in
  filter (fun transaction =>
            let transactionDate :=
              Date.ofString env (Transaction.timestamp transaction) in
            JS.ge transactionDate startDate
            && JS.lt transactionDate endDate)
         transactions.

Definition calculateTotalForMonth (transactions : list Transaction.t)
    (monthYear : string) : Z :=
  let monthTransactions := getTransactionsForMonth transactions monthYear in
  fold_left accumulate monthTransactions 0.

(** One unit of [fuel] is one activation of the function: [fuel = 0]
    stands for a call that cannot be made. *)
Fixpoint calculateRolloverAmount (fuel : nat)
    (transactions : list Transaction.t) (budgets : list MonthlyBudget.t)
    (currentMonth : string) : option Z :=
  match fuel with
  | O => None
  | S fuel' =>
      let previousMonth := getPreviousMonth currentMonth in
      let prevBudget := findBudget budgets previousMonth in
      match prevBudget with
      | None => Some 0
      | Some prevBudget =>
          rolloverAmount <-
            (if MonthlyBudget.rollover_enabled prevBudget then
               calculateRolloverAmount fuel' transactions budgets
                 previousMonth
             else Some 0) ;;
          let prevMonthTransactions :=
            getTransactionsForMonth transactions previousMonth in
          let prevMonthSumTransactions :=
            fold_left accumulate prevMonthTransactions 0 in
          let difference :=
            MonthlyBudget.budget_amount prevBudget + rolloverAmount
            - prevMonthSumTransactions in
          Some difference
      end
  end.

(** [{ ...budget, budget_amount: amount }] *)
Definition withAmount (budget : MonthlyBudget.t) (amount : Z)
  : MonthlyBudget.t :=
  {| MonthlyBudget.id := MonthlyBudget.id budget;
     MonthlyBudget.month_year := MonthlyBudget.month_year budget;
     MonthlyBudget.budget_amount := amount;
     MonthlyBudget.rollover_enabled := MonthlyBudget.rollover_enabled budget;
     MonthlyBudget.created_at := MonthlyBudget.created_at budget;
     MonthlyBudget.updated_at := MonthlyBudget.updated_at budget |}.

(** [{ ...budget, rollover_enabled: enabled }] *)
Definition withRollover (budget : MonthlyBudget.t) (enabled : bool)
  : MonthlyBudget.t :=
  {| MonthlyBudget.id := MonthlyBudget.id budget;
     MonthlyBudget.month_year := MonthlyBudget.month_year budget;
     MonthlyBudget.budget_amount := MonthlyBudget.budget_amount budget;
     MonthlyBudget.rollover_enabled := enabled;
     MonthlyBudget.created_at := MonthlyBudget.created_at budget;
     MonthlyBudget.updated_at := MonthlyBudget.updated_at budget |}.

(** [fuel] bounds the activations of [calculateRolloverAmount] that the
    summary starts. *)
Definition calculateBudgetSummary (fuel : nat) (monthYear : string)
    (transactions : list Transaction.t) (budgets : list MonthlyBudget.t)
    (defaultBudgetAmount : Z) : option BudgetSummary.t :=
  budget <-
    match findBudget budgets monthYear with
    | None =>
        rolloverAmount <-
          calculateRolloverAmount fuel transactions budgets monthYear ;;
        Some {| MonthlyBudget.id := 0;
                MonthlyBudget.month_year := monthYear;
                MonthlyBudget.budget_amount :=
                  defaultBudgetAmount + rolloverAmount;
                MonthlyBudget.rollover_enabled := true;
                MonthlyBudget.created_at := isoString env (now env);
                MonthlyBudget.updated_at := isoString env (now env) |}
    | Some budget =>
        if MonthlyBudget.rollover_enabled budget then
          rolloverAmount <-
            calculateRolloverAmount fuel transactions budgets monthYear ;;
          Some (withAmount budget (defaultBudgetAmount + rolloverAmount))
        else
          Some (withAmount budget defaultBudgetAmount)
    end ;;
  let totalTransactions := calculateTotalForMonth transactions monthYear in
  let remainingBudget :=
    MonthlyBudget.budget_amount budget - totalTransactions in
  let isOverBudget := remainingBudget <? 0 in
  Some {| BudgetSummary.month_year := monthYear;
          BudgetSummary.budget_amount := MonthlyBudget.budget_amount budget;
          BudgetSummary.total_transactions := totalTransactions;
          BudgetSummary.remaining_budget := remainingBudget;
          BudgetSummary.is_over_budget := isOverBudget;
          BudgetSummary.rollover_enabled :=
            MonthlyBudget.rollover_enabled budget |}.

Definition recalculateWithRolloverChange (fuel : nat) (monthYear : string)
    (transactions : list Transaction.t) (budgets : list MonthlyBudget.t)
    (newRolloverEnabled : bool) (defaultBudgetAmount : Z)
  : option BudgetSummary.t :=
  let updatedBudgets :=
    map (fun budget =>
           if String.eqb (MonthlyBudget.month_year budget) monthYear
           then withRollover budget newRolloverEnabled
           else budget)
        budgets in
  calculateBudgetSummary fuel monthYear transactions updatedBudgets
    defaultBudgetAmount.

End WithDevice.

End BudgetCalculator.

(** ** The month navigator ([MonthNavigator] component)

    The navigator holds no month of its own: a handler either calls
    [onMonthChange] with a month, here [Some] of it, or does nothing. *)

Module MonthNavigator.

(** A string or [null] used as a condition: [null] and the empty string
    count as false. *)
Definition truthy (s : option string) : bool :=
  match s with
  | Some (String _ _) => true
  | _ => false
  end.

(** [canGoPrevious && (!firstTrackedMonth || currentMonth > firstTrackedMonth)] *)
Definition canGoToPrevious (canGoPrevious : bool)
    (firstTrackedMonth : option string) (currentMonth : string) : bool :=
  canGoPrevious
  && (negb (truthy firstTrackedMonth)
      || match firstTrackedMonth with
         | Some first => String.ltb first currentMonth
         | None => false
         end).

Definition handlePreviousMonth (canGoPrevious : bool)
    (firstTrackedMonth : option string) (currentMonth : string)
  : option string :=
  if canGoToPrevious canGoPrevious firstTrackedMonth currentMonth then
    Some (MonthNavigation.getPreviousMonth currentMonth)
  else None.

Section WithDevice.
Variable env : DateEnv.

(** [canGoNext && currentMonth < currentMonthStr] *)
Definition canGoToNext (canGoNext : bool) (currentMonth : string) : bool :=
  let currentMonthStr := MonthNavigation.getCurrentMonth env in
  canGoNext && String.ltb currentMonth currentMonthStr.

Definition handleNextMonth (canGoNext : bool) (currentMonth : string)
  : option string :=
  if canGoToNext canGoNext currentMonth then
    Some (MonthNavigation.getNextMonth currentMonth)
  else None.

Definition handleBackToCurrent : option string :=
  Some (MonthNavigation.getCurrentMonth env).

End WithDevice.

End MonthNavigator.

(** ** The offline path of [HomeScreen.loadData]

    What [loadData] does once the requests to the server have failed, as a
    function of the two lists read from local storage.  The state is the
    part of the component state that this path writes. *)

Module HomeScreen.

Record State := mkState {
  transactions : list Transaction.t;
  monthlyBudgets : list MonthlyBudget.t;
  budgetSummary : option BudgetSummary.t;
  firstTrackedMonth : option string;
  snackbarMessage : string;
  snackbarVisible : bool;
  isLoading : bool;
  isRefreshing : bool
}.

(** [while (localBudgets[index].month_year != currentMonth) index += 1],
    started at [index] with [rest] the records from [index] on.  Past the
    end [localBudgets[index]] is [undefined] and reading its field throws:
    [None]. *)
Fixpoint scanBudgets (rest : list MonthlyBudget.t) (currentMonth : string)
    (index : nat) : option nat :=
  match rest with
  | [] => None
  | b :: rest' =>
      if negb (String.eqb (MonthlyBudget.month_year b) currentMonth)
      then scanBudgets rest' currentMonth (S index)
      else Some index
  end.

(** The [catch] of the offline path followed by [finally]. *)
Definition failed (state : State) : State :=
  {| transactions := transactions state;
     monthlyBudgets := monthlyBudgets state;
     budgetSummary := budgetSummary state;
     firstTrackedMonth := firstTrackedMonth state;
     snackbarMessage := "Failed to load data";
     snackbarVisible := true;
     isLoading := false;
     isRefreshing := false |}.

Section WithDevice.
Variable env : DateEnv.

(** The inner [try], its [catch] and the [finally] of [loadData].  The two
    lists are set before the search for the record of the month, so they
    stay set when the search throws.  The result is [None] only when [fuel]
    does not cover the rollover recursion. *)
Definition loadOffline (fuel : nat) (currentMonth : string)
    (localTransactions : list Transaction.t)
    (localBudgets : list MonthlyBudget.t) (state : State) : option State :=
  let state :=
    {| transactions := localTransactions;
       monthlyBudgets := localBudgets;
       budgetSummary := budgetSummary state;
       firstTrackedMonth := firstTrackedMonth state;
       snackbarMessage := snackbarMessage state;
       snackbarVisible := snackbarVisible state;
       isLoading := isLoading state;
       isRefreshing := isRefreshing state |} in
  match scanBudgets localBudgets currentMonth 0 with
  | None => Some (failed state)
  | Some index =>
      match nth_error localBudgets index with
      | None => Some (failed state)
      | Some found =>
          let localBudgetCurrentMonth := MonthlyBudget.budget_amount found in
          calculatedSummary <-
            BudgetCalculator.calculateBudgetSummary env fuel currentMonth
              localTransactions localBudgets localBudgetCurrentMonth ;;
          let firstTracked :=
            MonthNavigation.getFirstTrackedMonth env localTransactions in
          Some {| transactions := transactions state;
                  monthlyBudgets := monthlyBudgets state;
                  budgetSummary := Some calculatedSummary;
                  firstTrackedMonth := Some firstTracked;
                  snackbarMessage := "Using offline data";
                  snackbarVisible := true;
                  isLoading := false;
                  isRefreshing := false |}
      end
  end.

End WithDevice.

End HomeScreen.

(** ** The amount field of the forms ([formatAmount]) *)

Module AmountInput.

(** The characters that [/[^0-9.]/] does not match: digits and the dot. *)
Definition keeps (c : ascii) : bool :=
  let n := Z.of_N (N_of_ascii c) in
  ((48 <=? n) && (n <=? 57)) || Ascii.eqb c ".".

(** [text.replace(/[^0-9.]/g, '')] *)
Fixpoint clean (text : string) : string :=
  match text with
  | EmptyString => EmptyString
  | String c rest => if keeps c then String c (clean rest) else clean rest
  end.

Definition formatAmount (text : string) : string :=
  let cleaned := clean text in
  let parts := JS.split "." cleaned in
  if (2 <? Z.of_nat (List.length parts)) then
    JS.element 0 parts ++ "." ++ String.concat "" (tl parts)
  else if (Z.of_nat (List.length parts) =? 2)
          && (2 <? Z.of_nat (String.length (JS.element 1 parts))) then
    JS.element 0 parts ++ "." ++ substring 0 2 (JS.element 1 parts)
  else cleaned.

(** Every character of [s] satisfies [P]. *)
Fixpoint allChars (P : ascii -> bool) (s : string) : bool :=
  match s with
  | EmptyString => true
  | String c rest => P c && allChars P rest
  end.

Definition notDot (c : ascii) : bool := negb (Ascii.eqb c ".").

End AmountInput.

(** ** Month keys

    The vocabulary of the specification about month keys: the format
    [YYYY-MM] with zero padding, the calendar reading of a key, and the
    order on keys, which is the order of strings. *)

Module MonthKey.

Definition isDigit (c : ascii) : bool :=
  let n := Z.of_N (N_of_ascii c) in (48 <=? n) && (n <=? 57).

Definition digitOf (c : ascii) : Z := Z.of_N (N_of_ascii c) - 48.

Definition twoDigits (a b : ascii) : Z := digitOf a * 10 + digitOf b.

Definition fourDigits (a b c d : ascii) : Z :=
  digitOf a * 1000 + digitOf b * 100 + digitOf c * 10 + digitOf d.

(** Year and month that a key of seven characters denotes. *)
Definition year (k : string) : Z :=
  match k with
  | String a (String b (String c (String d _))) => fourDigits a b c d
  | _ => 0
  end.

Definition month (k : string) : Z :=
  match k with
  | String _ (String _ (String _ (String _ (String _
      (String e (String f _)))))) => twoDigits e f
  | _ => 0
  end.

(** Four digits, a dash, and two digits that read 01 to 12. *)
Definition wellFormed (k : string) : bool :=
  match k with
  | String a (String b (String c (String d (String dash
      (String e (String f EmptyString)))))) =>
      isDigit a && isDigit b && isDigit c && isDigit d
      && Ascii.eqb dash "-"
      && isDigit e && isDigit f
      && (1 <=? twoDigits e f) && (twoDigits e f <=? 12)
  | _ => false
  end.

(** Number of the month on the calendar, counted from January of year 0. *)
Definition ordinal (k : string) : Z := 12 * year k + month k - 1.

(** [k1 < k2] as the code compares keys, that is as strings. *)
Definition before (k1 k2 : string) : bool := String.ltb k1 k2.

Definition digitChars : list ascii :=
  ["0"; "1"; "2"; "3"; "4"; "5"; "6"; "7"; "8"; "9"]%char.

Definition monthChars : list (ascii * ascii) :=
  [("0", "1"); ("0", "2"); ("0", "3"); ("0", "4"); ("0", "5"); ("0", "6");
   ("0", "7"); ("0", "8"); ("0", "9"); ("1", "0"); ("1", "1");
   ("1", "2")]%char.

Definition make (a b c d : ascii) (mm : ascii * ascii) : string :=
  String a (String b (String c (String d (String "-"
    (String (fst mm) (String (snd mm) EmptyString)))))).

(** The character of a digit. *)
Definition digitChar (n : Z) : ascii := ascii_of_N (Z.to_N (48 + n)).

(** A check run on the key of month [mm] of each year 0000 to 9999. *)
Definition forallYears (mm : ascii * ascii) (check : string -> bool)
  : bool :=
  forallb (fun a => forallb (fun b => forallb (fun c => forallb (fun d =>
    check (make a b c d mm))
    digitChars) digitChars) digitChars) digitChars.

End MonthKey.

(** Checks on the keys where the year changes, run over all years by
    [MonthKey.forallYears]. *)

Module KeyCheck.
Import MonthKey.

(** On a January.  Below year 1001 the predecessor is not a well-formed
    key (the year is printed without padding) and the key is not after
    1000-01; from 1001 on the predecessor is December of the year before,
    is ordered before the key, and [getNextMonth] leads back. *)
Definition january (k : string) : bool :=
  let p := BudgetCalculator.getPreviousMonth k in
  if year k <? 1001 then
    negb (wellFormed p) && negb (before "1000-01" k)
  else
    wellFormed p && (year p =? year k - 1) && (month p =? 12)
    && String.eqb (BudgetCalculator.getNextMonth p) k
    && before p k.

(** On a December of a year from 1000 to 9998: the successor is January
    of the year after, is ordered after the key, and [getPreviousMonth]
    leads back. *)
Definition december (k : string) : bool :=
  let n := BudgetCalculator.getNextMonth k in
  if (1000 <=? year k) && (year k <=? 9998) then
    wellFormed n && (year n =? year k + 1) && (month n =? 1)
    && String.eqb (BudgetCalculator.getPreviousMonth n) k
    && before k n
  else true.

(** From 1000 on, a year number is printed as the four digits of the
    key. *)
Definition yearPrinted (k : string) : bool :=
  if 1000 <=? year k then
    String.eqb (JS.toString (Some (year k))) (substring 0 4 k)
  else true.

End KeyCheck.

(** ** The reference definitions of the specification *)

Module Spec.

Definition previousMonth := BudgetCalculator.getPreviousMonth.
Definition nextMonth := BudgetCalculator.getNextMonth.


(** The [i]-th month before [m]. *)
Fixpoint precedingMonth (i : nat) (m : string) : string :=
  match i with
  | O => m
  | S i' => previousMonth (precedingMonth i' m)
  end.

(** The [i]-th month after [m]. *)
Fixpoint followingMonth (i : nat) (m : string) : string :=
  match i with
  | O => m
  | S i' => nextMonth (followingMonth i' m)
  end.

(** Month [k] has a budget record and rollover is enabled on it. *)
Definition enabledRecord (budgets : list MonthlyBudget.t) (k : string)
  : Prop :=
  exists b, In b budgets /\ MonthlyBudget.month_year b = k
            /\ MonthlyBudget.rollover_enabled b = true.

(** The [n] months before [m] all have a record with rollover enabled. *)
Definition consecutiveEnabled (budgets : list MonthlyBudget.t) (m : string)
    (n : nat) : Prop :=
  forall i, (1 <= i <= n)%nat -> enabledRecord budgets (precedingMonth i m).

(** The hypothesis on the budgets collection: well-formed keys, one record
    per month. *)
Definition wellFormedBudgets (budgets : list MonthlyBudget.t) : Prop :=
  Forall (fun b => MonthKey.wellFormed (MonthlyBudget.month_year b) = true)
         budgets
  /\ NoDup (map MonthlyBudget.month_year budgets).

Section WithDevice.
Variable env : DateEnv.



(** The call at [m] returns [v] through [d] nested calls: it succeeds with
    room for more than [d] activations and fails with room for [d] or
    fewer. *)
Definition returnsAtDepth (transactions : list Transaction.t)
    (budgets : list MonthlyBudget.t) (m : string) (d : nat) (v : Z) : Prop :=
  (forall fuel, (d < fuel)%nat ->
     BudgetCalculator.calculateRolloverAmount env fuel transactions budgets m
     = Some v)
  /\ (forall fuel, (fuel <= d)%nat ->
       BudgetCalculator.calculateRolloverAmount env fuel transactions budgets m
       = None).



End WithDevice.

(** The number of consecutive months before [m] that have a record with
    rollover enabled is [d]: the first [d] have one and the next does
    not. *)
Definition chainLength (budgets : list MonthlyBudget.t) (m : string)
    (d : nat) : Prop :=
  consecutiveEnabled budgets m d /\ ~ consecutiveEnabled budgets m (S d).

End Spec.

(** ** Sample data

    The end-to-end scenario of the specification, in hundredths: a budget of
    1000 for September, October and November 2025, a withdrawal of 800 in
    September and one of 1300 in October; and variations of it. *)

Module Sample.

Definition dev : DateEnv := UTC.device 1762100000000.

Definition tx (kind : string) (amount : Z) (timestamp : string)
  : Transaction.t :=
  Transaction.mk 1 "phone" "purchase" amount kind timestamp timestamp
    timestamp None.

Definition budget (monthYear : string) (amount : Z) (rollover : bool)
  : MonthlyBudget.t :=
  MonthlyBudget.mk 1 monthYear amount rollover
    "2025-09-01T00:00:00.000Z" "2025-09-01T00:00:00.000Z".

Definition transactions : list Transaction.t :=
  [tx "withdraw" 80000 "2025-09-10T10:00:00.000Z";
   tx "withdraw" 130000 "2025-10-20T18:30:00.000Z"].

Definition budgets : list MonthlyBudget.t :=
  [budget "2025-09" 100000 true;
   budget "2025-10" 100000 true;
   budget "2025-11" 100000 true].



(** September overspent by far: a withdrawal of 5000 on a budget of 1000. *)
Definition overspent : list Transaction.t :=
  [tx "withdraw" 500000 "2025-09-10T10:00:00.000Z"].

Definition septemberOnly : list MonthlyBudget.t :=
  [budget "2025-09" 100000 false].

(** A ledger that starts in January of year 1000, with a record under the
    key that [getPreviousMonth] computes for the month before. *)
Definition year1000 : list Transaction.t :=
  [tx "withdraw" 100 "1000-01-15T12:00:00.000Z"].

Definition december999 : list MonthlyBudget.t :=
  [budget "999-12" 5000 false].

(** A record under a key that is its own predecessor. *)
Definition notAMonth : list MonthlyBudget.t :=
  [budget "NaN-NaN" 100000 true].

End Sample.

(** * Properties *)

(** ** Digits and keys *)

Section KeyFacts.
Import MonthKey.

Lemma isDigit_In (c : ascii) : isDigit c = true -> In c digitChars.
Proof.
destruct c as [[] [] [] [] [] [] [] []]; vm_compute; intro H;
  try discriminate H; auto 12.
Qed.

Lemma digit_not_dash (c : ascii) : isDigit c = true -> Ascii.eqb c "-" = false.
Proof.
intro H. apply isDigit_In in H. simpl in H.
repeat (destruct H as [<- | H]; [reflexivity |]). destruct H.
Qed.

Lemma forallYears_sound (mm : ascii * ascii) (check : string -> bool) :
forallYears mm check = true ->
forall a b c d,
  isDigit a = true -> isDigit b = true -> isDigit c = true ->
  isDigit d = true -> check (make a b c d mm) = true.
Proof.
unfold forallYears. intros H a b c d Ha Hb Hc Hd.
rewrite forallb_forall in H. specialize (H a (isDigit_In a Ha)).
rewrite forallb_forall in H. specialize (H b (isDigit_In b Hb)).
rewrite forallb_forall in H. specialize (H c (isDigit_In c Hc)).
rewrite forallb_forall in H. exact (H d (isDigit_In d Hd)).
Qed.

Lemma january_checked : forallYears ("0", "1")%char KeyCheck.january = true.
Proof. vm_cast_no_check (eq_refl true). Qed.

Lemma december_checked : forallYears ("1", "2")%char KeyCheck.december = true.
Proof. vm_cast_no_check (eq_refl true). Qed.

(** A well-formed key is [make] of four digits and one of the twelve
  months. *)
Lemma wellFormed_make (k : string) :
wellFormed k = true ->
exists a b c d mm,
  k = make a b c d mm /\ In mm monthChars
  /\ isDigit a = true /\ isDigit b = true /\ isDigit c = true
  /\ isDigit d = true.
Proof.
destruct k as [|a [|b [|c [|d [|dash [|e [|f [|? ?]]]]]]]];
  try discriminate.
unfold wellFormed. intro H.
repeat (apply andb_prop in H; destruct H as [H ?]).
match goal with E : Ascii.eqb dash _ = true |- _ =>
  apply Ascii.eqb_eq in E; subst dash end.
exists a, b, c, d, (e, f). unfold make. simpl fst; simpl snd.
repeat split; try assumption;
  try (unfold isDigit; apply andb_true_intro; split; assumption).
assert (He : In e digitChars) by (apply isDigit_In; assumption).
assert (Hf : In f digitChars) by (apply isDigit_In; assumption).
assert (Hlo : (1 <=? twoDigits e f) = true) by assumption.
assert (Hhi : (twoDigits e f <=? 12) = true) by assumption.
clear - He Hf Hlo Hhi. simpl in He, Hf.
repeat (destruct He as [He | He]; [subst e |]); try contradiction;
  repeat (destruct Hf as [Hf | Hf]; [subst f |]); try contradiction;
  try discriminate Hlo; try discriminate Hhi; simpl; auto 15.
Qed.

End KeyFacts.

Section Adjacent.
Import MonthKey.
Import BudgetCalculator.

Lemma split_make (a b c d : ascii) (mm : ascii * ascii) :
isDigit a = true -> isDigit b = true -> isDigit c = true ->
isDigit d = true -> In mm monthChars ->
JS.split "-" (make a b c d mm)
= [String a (String b (String c (String d "")));
   String (fst mm) (String (snd mm) "")].
Proof.
intros Ha Hb Hc Hd Hmm. unfold make. cbn [JS.split].
rewrite !digit_not_dash by assumption.
simpl in Hmm.
repeat (destruct Hmm as [Hmm | Hmm]; [subst mm; reflexivity |]).
contradiction.
Qed.

Lemma getPreviousMonth_parts (monthYear year month : string) :
JS.split "-" monthYear = [year; month] ->
getPreviousMonth monthYear
= if JS.strictEq (JS.parseInt month) 1
  then JS.toString (JS.sub (JS.parseInt year) (Some 1)) ++ "-12"
  else year ++ "-"
       ++ JS.padStart 2 "0"
            (JS.toString (JS.sub (JS.parseInt month) (Some 1))).
Proof. intro H. unfold getPreviousMonth. rewrite H. reflexivity. Qed.

Lemma getNextMonth_parts (monthYear year month : string) :
JS.split "-" monthYear = [year; month] ->
getNextMonth monthYear
= if JS.strictEq (JS.parseInt month) 12
  then JS.toString (JS.add (JS.parseInt year) (Some 1)) ++ "-01"
  else year ++ "-"
       ++ JS.padStart 2 "0"
            (JS.toString (JS.add (JS.parseInt month) (Some 1))).
Proof. intro H. unfold getNextMonth. rewrite H. reflexivity. Qed.

Lemma before_cons (c : ascii) (s1 s2 : string) :
before (String c s1) (String c s2) = before s1 s2.
Proof.
unfold before, String.ltb. simpl.
unfold Ascii.compare. rewrite N.compare_refl. reflexivity.
Qed.

Lemma wellFormed_make_intro (a b c d : ascii) (mm : ascii * ascii) :
isDigit a = true -> isDigit b = true -> isDigit c = true ->
isDigit d = true -> In mm monthChars ->
wellFormed (make a b c d mm) = true.
Proof.
intros Ha Hb Hc Hd Hmm. unfold make, wellFormed.
rewrite Ha, Hb, Hc, Hd. simpl in Hmm.
repeat (destruct Hmm as [Hmm | Hmm]; [subst mm; reflexivity |]).
contradiction.
Qed.

(** The month before a well-formed key, away from the Januaries of the
  years below 1001. *)
Lemma previous_key (k : string) :
wellFormed k = true ->
month k <> 1 \/ 1001 <= year k ->
wellFormed (getPreviousMonth k) = true
/\ (month k = 1 ->
    year (getPreviousMonth k) = year k - 1
    /\ month (getPreviousMonth k) = 12)
/\ (month k <> 1 ->
    year (getPreviousMonth k) = year k
    /\ month (getPreviousMonth k) = month k - 1)
/\ getNextMonth (getPreviousMonth k) = k
/\ before (getPreviousMonth k) k = true.
Proof.
intros Hwf Hrange.
destruct (wellFormed_make k Hwf)
  as (a & b & c & d & mm & -> & Hmm & Ha & Hb & Hc & Hd).
pose proof (split_make a b c d) as Hsplit.
simpl in Hmm. destruct Hmm as [Hmm | Hmm].
- (* January *)
  subst mm.
  pose proof (forallYears_sound _ _ january_checked a b c d Ha Hb Hc Hd)
    as Hjan.
  unfold KeyCheck.january in Hjan.
  assert (Hy : (year (make a b c d ("0", "1")%char) <? 1001) = false).
  { apply Z.ltb_ge. destruct Hrange as [Hm | Hy]; [|exact Hy].
    exfalso. apply Hm. reflexivity. }
  rewrite Hy in Hjan.
  repeat (apply andb_prop in Hjan; destruct Hjan as [Hjan ?]).
  refine (conj _ (conj _ (conj _ (conj _ _)))).
  + assumption.
  + intros _. split; apply Z.eqb_eq; assumption.
  + intro Hm. exfalso. apply Hm. reflexivity.
  + apply String.eqb_eq. assumption.
  + assumption.
- (* the eleven other months *)
  repeat (destruct Hmm as [Hmm | Hmm];
    [ subst mm;
      match goal with
      | |- context [getPreviousMonth (make a b c d ?m)] =>
          rewrite (getPreviousMonth_parts _ _ _
                     (Hsplit m Ha Hb Hc Hd ltac:(simpl; auto 15)))
      end;
      cbn [fst snd];
      match goal with
      | |- context [if ?c then _ else _] =>
          replace c with false by reflexivity
      end;
      match goal with
      | |- context [JS.padStart ?n ?ch ?s] =>
          let v := eval vm_compute in (JS.padStart n ch s) in
          change (JS.padStart n ch s) with v
      end;
      match goal with
      | |- context [(?y ++ "-" ++ String ?e (String ?f ""))%string] =>
          change (y ++ "-" ++ String e (String f ""))%string
            with (make a b c d (e, f))
      end;
      refine (conj _ (conj _ (conj _ (conj _ _))));
      [ apply wellFormed_make_intro; simpl; auto 15
      | intro Hm; discriminate Hm
      | intros _; split; reflexivity
      | match goal with
        | |- getNextMonth (make a b c d ?m) = _ =>
            rewrite (getNextMonth_parts _ _ _
                       (Hsplit m Ha Hb Hc Hd ltac:(simpl; auto 15)))
        end;
        reflexivity
      | unfold make; rewrite !before_cons; reflexivity ]
    | ]).
  contradiction.
Qed.

(** The month after a well-formed key, away from the Decembers of the
  years below 1000 and of year 9999. *)
Lemma next_key (k : string) :
wellFormed k = true ->
month k <> 12 \/ 1000 <= year k <= 9998 ->
wellFormed (getNextMonth k) = true
/\ (month k = 12 ->
    year (getNextMonth k) = year k + 1
    /\ month (getNextMonth k) = 1)
/\ (month k <> 12 ->
    year (getNextMonth k) = year k
    /\ month (getNextMonth k) = month k + 1)
/\ getPreviousMonth (getNextMonth k) = k
/\ before k (getNextMonth k) = true.
Proof.
intros Hwf Hrange.
destruct (wellFormed_make k Hwf)
  as (a & b & c & d & mm & -> & Hmm & Ha & Hb & Hc & Hd).
pose proof (split_make a b c d) as Hsplit.
simpl in Hmm.
repeat (destruct Hmm as [Hmm | Hmm];
  [ subst mm;
    first
    [ (* the eleven months before December *)
      match goal with
      | |- context [getNextMonth (make a b c d ?m)] =>
          rewrite (getNextMonth_parts _ _ _
                     (Hsplit m Ha Hb Hc Hd ltac:(simpl; auto 15)))
      end;
      cbn [fst snd];
      match goal with
      | |- context [if ?c then _ else _] =>
          replace c with false by reflexivity
      end;
      match goal with
      | |- context [JS.padStart ?n ?ch ?s] =>
          let v := eval vm_compute in (JS.padStart n ch s) in
          change (JS.padStart n ch s) with v
      end;
      match goal with
      | |- context [(?y ++ "-" ++ String ?e (String ?f ""))%string] =>
          change (y ++ "-" ++ String e (String f ""))%string
            with (make a b c d (e, f))
      end;
      refine (conj _ (conj _ (conj _ (conj _ _))));
      [ apply wellFormed_make_intro; simpl; auto 15
      | intro Hm; discriminate Hm
      | intros _; split; reflexivity
      | match goal with
        | |- getPreviousMonth (make a b c d ?m) = _ =>
            rewrite (getPreviousMonth_parts _ _ _
                       (Hsplit m Ha Hb Hc Hd ltac:(simpl; auto 15)))
        end;
        reflexivity
      | unfold make; rewrite !before_cons; reflexivity ]
    | (* December *)
      pose proof (forallYears_sound _ _ december_checked a b c d
                    Ha Hb Hc Hd) as Hdec;
      unfold KeyCheck.december in Hdec;
      assert (Hy : ((1000 <=? year (make a b c d ("1", "2")%char))
                    && (year (make a b c d ("1", "2")%char) <=? 9998))
                   = true)
        by (destruct Hrange as [Hm | [Hlo Hhi]];
            [ exfalso; apply Hm; reflexivity
            | apply andb_true_intro; split;
              apply Z.leb_le; assumption ]);
      rewrite Hy in Hdec;
      repeat (apply andb_prop in Hdec; destruct Hdec as [Hdec ?]);
      refine (conj _ (conj _ (conj _ (conj _ _))));
      [ assumption
      | intros _; split; apply Z.eqb_eq; assumption
      | intro Hm; exfalso; apply Hm; reflexivity
      | apply String.eqb_eq; assumption
      | assumption ] ]
  | ]).
contradiction.
Qed.

(** A January below year 1001 has no well-formed predecessor. *)
Lemma previous_not_wellFormed (k : string) :
wellFormed k = true -> month k = 1 -> year k < 1001 ->
wellFormed (getPreviousMonth k) = false.
Proof.
intros Hwf Hm Hy.
destruct (wellFormed_make k Hwf)
  as (a & b & c & d & mm & -> & Hmm & Ha & Hb & Hc & Hd).
simpl in Hmm. destruct Hmm as [Hmm | Hmm].
- subst mm.
  pose proof (forallYears_sound _ _ january_checked a b c d Ha Hb Hc Hd)
    as Hjan.
  unfold KeyCheck.january in Hjan.
  apply Z.ltb_lt in Hy. rewrite Hy in Hjan.
  apply andb_prop in Hjan. destruct Hjan as [Hjan _].
  apply negb_true_iff in Hjan. exact Hjan.
- exfalso.
  repeat (destruct Hmm as [Hmm | Hmm]; [subst mm; discriminate Hm |]).
  contradiction.
Qed.

(** A well-formed key ordered after 1000-01 is not a January below year
  1001. *)
Lemma after_1000 (k : string) :
wellFormed k = true -> before "1000-01" k = true ->
month k <> 1 \/ 1001 <= year k.
Proof.
intros Hwf Hafter.
destruct (wellFormed_make k Hwf)
  as (a & b & c & d & mm & -> & Hmm & Ha & Hb & Hc & Hd).
simpl in Hmm. destruct Hmm as [Hmm | Hmm].
- subst mm. right.
  pose proof (forallYears_sound _ _ january_checked a b c d Ha Hb Hc Hd)
    as Hjan.
  unfold KeyCheck.january in Hjan.
  destruct (year (make a b c d ("0", "1")%char) <? 1001) eqn:Hy.
  + apply andb_prop in Hjan. destruct Hjan as [_ Hjan].
    rewrite Hafter in Hjan. discriminate Hjan.
  + apply Z.ltb_ge. exact Hy.
- left.
  repeat (destruct Hmm as [Hmm | Hmm];
          [subst mm; intro Hm; discriminate Hm |]).
  contradiction.
Qed.

Lemma digitOf_range (c : ascii) : isDigit c = true -> 0 <= digitOf c <= 9.
Proof.
unfold isDigit, digitOf. intro H.
apply andb_prop in H. destruct H as [Hlo Hhi].
apply Z.leb_le in Hlo. apply Z.leb_le in Hhi. lia.
Qed.

Lemma wellFormed_range (k : string) :
wellFormed k = true -> 0 <= year k <= 9999 /\ 1 <= month k <= 12.
Proof.
intro Hwf.
destruct (wellFormed_make k Hwf)
  as (a & b & c & d & mm & -> & Hmm & Ha & Hb & Hc & Hd).
split.
- unfold make, year, fourDigits.
  pose proof (digitOf_range a Ha). pose proof (digitOf_range b Hb).
  pose proof (digitOf_range c Hc). pose proof (digitOf_range d Hd). lia.
- simpl in Hmm.
  repeat (destruct Hmm as [Hmm | Hmm];
          [subst mm; vm_compute; split; discriminate |]).
  contradiction.
Qed.

(** Along [getPreviousMonth] the calendar number of a well-formed key goes
  down by one as long as the key stays well formed. *)
Lemma previous_ordinal (k : string) :
wellFormed k = true -> wellFormed (getPreviousMonth k) = true ->
ordinal (getPreviousMonth k) = ordinal k - 1.
Proof.
intros Hwf Hp.
assert (Hrange : month k <> 1 \/ 1001 <= year k).
{ destruct (Z.eq_dec (month k) 1) as [Hm | Hm]; [|left; exact Hm].
  destruct (Z_lt_le_dec (year k) 1001) as [Hy | Hy]; [|right; exact Hy].
  rewrite (previous_not_wellFormed k Hwf Hm Hy) in Hp. discriminate Hp. }
destruct (previous_key k Hwf Hrange) as (_ & Hjan & Hother & _ & _).
unfold ordinal.
destruct (Z.eq_dec (month k) 1) as [Hm | Hm].
- destruct (Hjan Hm) as [-> ->]. lia.
- destruct (Hother Hm) as [-> ->]. lia.
Qed.

End Adjacent.

(** ** The rollover recursion *)

Section Rollover.
Import BudgetCalculator.
Variable env : DateEnv.
Variable transactions : list Transaction.t.
Variable budgets : list MonthlyBudget.t.

(** The body of [calculateRolloverAmount], one activation unfolded. *)
Lemma calculateRolloverAmount_step (fuel : nat) (m : string) :
  calculateRolloverAmount env (S fuel) transactions budgets m
  = match findBudget budgets (getPreviousMonth m) with
    | None => Some 0
    | Some prev =>
        inner <- (if MonthlyBudget.rollover_enabled prev
                  then calculateRolloverAmount env fuel transactions budgets
                         (getPreviousMonth m)
                  else Some 0) ;;
        Some (MonthlyBudget.budget_amount prev + inner
              - calculateTotalForMonth env transactions (getPreviousMonth m))
    end.
Proof. reflexivity. Qed.





Lemma findBudget_Some (k : string) (b : MonthlyBudget.t) :
  findBudget budgets k = Some b ->
  In b budgets /\ MonthlyBudget.month_year b = k.
Proof.
  unfold findBudget. intro H. apply find_some in H.
  destruct H as [Hin Heq]. apply String.eqb_eq in Heq. split; assumption.
Qed.

Lemma findBudget_None (k : string) :
  findBudget budgets k = None ->
  forall b, In b budgets -> MonthlyBudget.month_year b <> k.
Proof.
  unfold findBudget. intros H b Hin Heq.
  pose proof (find_none _ _ H b Hin) as Hne. simpl in Hne.
  apply String.eqb_neq in Hne. contradiction.
Qed.

Lemma findBudget_absent (k : string) :
  (forall b, In b budgets -> MonthlyBudget.month_year b <> k) ->
  findBudget budgets k = None.
Proof.
  intro H. destruct (findBudget budgets k) as [b|] eqn:Hfind; [|reflexivity].
  apply findBudget_Some in Hfind. destruct Hfind as [Hin Heq].
  exfalso. exact (H b Hin Heq).
Qed.

End Rollover.

(** With one record per month, the record of a month is the one that
    [find] returns. *)
Lemma findBudget_unique (budgets : list MonthlyBudget.t) (b : MonthlyBudget.t) :
  NoDup (map MonthlyBudget.month_year budgets) ->
  In b budgets ->
  BudgetCalculator.findBudget budgets (MonthlyBudget.month_year b) = Some b.
Proof.
  unfold BudgetCalculator.findBudget.
  induction budgets as [|b0 rest IH]; intros Hnd Hin.
  - destruct Hin.
  - simpl in Hnd. inversion Hnd as [|? ? Hnotin Hnd']; subst.
    simpl. destruct Hin as [-> | Hin].
    + rewrite String.eqb_refl. reflexivity.
    + destruct (String.eqb (MonthlyBudget.month_year b0)
                  (MonthlyBudget.month_year b)) eqn:Heq.
      * apply String.eqb_eq in Heq. exfalso. apply Hnotin.
        rewrite Heq. apply in_map. exact Hin.
      * apply IH; assumption.
Qed.

Lemma precedingMonth_shift (i : nat) (m : string) :
  Spec.precedingMonth (S i) m
  = Spec.precedingMonth i (BudgetCalculator.getPreviousMonth m).
Proof.
  induction i as [|i IH].
  - reflexivity.
  - change (Spec.precedingMonth (S (S i)) m)
      with (Spec.previousMonth (Spec.precedingMonth (S i) m)).
    rewrite IH. reflexivity.
Qed.

Section Depth.
Import BudgetCalculator.
Variable env : DateEnv.
Variable transactions : list Transaction.t.
Variable budgets : list MonthlyBudget.t.
Hypothesis budgets_ok : Spec.wellFormedBudgets budgets.

Lemma completes_no_record (m : string) :
  findBudget budgets (getPreviousMonth m) = None ->
  Spec.returnsAtDepth env transactions budgets m 0 0
  /\ Spec.chainLength budgets m 0.
Proof.
  intro Hfind. split; split.
  - intros [|fuel] Hlt; [lia|].
    rewrite calculateRolloverAmount_step, Hfind. reflexivity.
  - intros fuel Hle. replace fuel with 0%nat by lia. reflexivity.
  - intros i Hi. lia.
  - intro Hchain. destruct (Hchain 1%nat ltac:(lia)) as (b & Hin & Hkey & _).
    exact (findBudget_None budgets _ Hfind b Hin Hkey).
Qed.

Lemma completes_disabled (m : string) (prev : MonthlyBudget.t) :
  findBudget budgets (getPreviousMonth m) = Some prev ->
  MonthlyBudget.rollover_enabled prev = false ->
  Spec.returnsAtDepth env transactions budgets m 0
    (MonthlyBudget.budget_amount prev + 0
     - calculateTotalForMonth env transactions (getPreviousMonth m))
  /\ Spec.chainLength budgets m 0.
Proof.
  intros Hfind Hoff. split; split.
  - intros [|fuel] Hlt; [lia|].
    rewrite calculateRolloverAmount_step, Hfind, Hoff. reflexivity.
  - intros fuel Hle. replace fuel with 0%nat by lia. reflexivity.
  - intros i Hi. lia.
  - intro Hchain. destruct (Hchain 1%nat ltac:(lia)) as (b & Hin & Hkey & Hon).
    simpl in Hkey. unfold Spec.previousMonth in Hkey.
    pose proof (findBudget_unique budgets b (proj2 budgets_ok) Hin) as Hb.
    rewrite Hkey, Hfind in Hb. injection Hb as ->.
    rewrite Hoff in Hon. discriminate Hon.
Qed.

Lemma completes_enabled (m : string) (prev : MonthlyBudget.t) (d : nat)
    (inner : Z) :
  findBudget budgets (getPreviousMonth m) = Some prev ->
  MonthlyBudget.rollover_enabled prev = true ->
  Spec.returnsAtDepth env transactions budgets (getPreviousMonth m) d inner
  /\ Spec.chainLength budgets (getPreviousMonth m) d ->
  Spec.returnsAtDepth env transactions budgets m (S d)
    (MonthlyBudget.budget_amount prev + inner
     - calculateTotalForMonth env transactions (getPreviousMonth m))
  /\ Spec.chainLength budgets m (S d).
Proof.
  intros Hfind Hon ((Hdone & Hshort) & (Hchain & Hstop)).
  split; split.
  - intros [|fuel] Hlt; [lia|].
    rewrite calculateRolloverAmount_step, Hfind, Hon.
    rewrite (Hdone fuel) by lia. reflexivity.
  - intros [|fuel] Hle; [reflexivity|].
    rewrite calculateRolloverAmount_step, Hfind, Hon.
    rewrite (Hshort fuel) by lia. reflexivity.
  - intros [|[|i]] Hi; [lia | |].
    + apply findBudget_Some in Hfind. destruct Hfind as [Hin Hkey].
      exists prev. split; [|split]; assumption.
    + rewrite precedingMonth_shift. apply Hchain. lia.
  - intro Hlong. apply Hstop. intros i Hi.
    rewrite <- precedingMonth_shift. apply Hlong. lia.
Qed.

Lemma found_wellFormed (k : string) (b : MonthlyBudget.t) :
  findBudget budgets k = Some b -> MonthKey.wellFormed k = true.
Proof.
  intro Hfind. apply findBudget_Some in Hfind. destruct Hfind as [Hin <-].
  destruct budgets_ok as [Hall _]. rewrite Forall_forall in Hall.
  exact (Hall b Hin).
Qed.

Lemma completes_wellFormed (n : nat) :
  forall k, MonthKey.wellFormed k = true ->
            MonthKey.ordinal k < Z.of_nat n ->
            exists d v,
              Spec.returnsAtDepth env transactions budgets k d v
              /\ Spec.chainLength budgets k d.
Proof.
  induction n as [|n IH]; intros k Hwf Hord.
  - pose proof (wellFormed_range k Hwf) as [Hy Hm].
    unfold MonthKey.ordinal in Hord. lia.
  - destruct (findBudget budgets (getPreviousMonth k)) as [prev|] eqn:Hfind.
    + destruct (MonthlyBudget.rollover_enabled prev) eqn:Hon.
      * pose proof (found_wellFormed _ _ Hfind) as Hwfp.
        pose proof (previous_ordinal k Hwf Hwfp) as Hstep.
        destruct (IH (getPreviousMonth k) Hwfp ltac:(lia)) as (d & v & Hc).
        eexists _, _. exact (completes_enabled k prev d v Hfind Hon Hc).
      * eexists _, _. exact (completes_disabled k prev Hfind Hon).
    + eexists _, _. exact (completes_no_record k Hfind).
Qed.

Lemma completes_any (m : string) :
  exists d v,
    Spec.returnsAtDepth env transactions budgets m d v
    /\ Spec.chainLength budgets m d.
Proof.
  destruct (findBudget budgets (getPreviousMonth m)) as [prev|] eqn:Hfind.
  - destruct (MonthlyBudget.rollover_enabled prev) eqn:Hon.
    + pose proof (found_wellFormed _ _ Hfind) as Hwfp.
      destruct (completes_wellFormed
                  (S (Z.to_nat (MonthKey.ordinal (getPreviousMonth m))))
                  (getPreviousMonth m) Hwfp ltac:(lia)) as (d & v & Hc).
      eexists _, _. exact (completes_enabled m prev d v Hfind Hon Hc).
    + eexists _, _. exact (completes_disabled m prev Hfind Hon).
  - eexists _, _. exact (completes_no_record m Hfind).
Qed.

End Depth.

(** Without the hypothesis on the keys the recursion may not return:
    [getPreviousMonth] maps the key NaN-NaN to itself, and a record with
    rollover enabled under that key keeps the recursion going. *)
Example rollover_does_not_return_on_malformed_key (fuel : nat) :
  BudgetCalculator.getPreviousMonth "NaN-NaN" = "NaN-NaN"
  /\ BudgetCalculator.calculateRolloverAmount Sample.dev fuel
       Sample.transactions Sample.notAMonth "NaN-NaN" = None.
Proof.
  split; [reflexivity|].
  induction fuel as [|fuel IH]; [reflexivity|].
  rewrite calculateRolloverAmount_step.
  change (BudgetCalculator.getPreviousMonth "NaN-NaN") with "NaN-NaN".
  change (BudgetCalculator.findBudget Sample.notAMonth "NaN-NaN")
    with (Some (Sample.budget "NaN-NaN" 100000 true)).
  cbn [MonthlyBudget.rollover_enabled Sample.budget].
  rewrite IH. reflexivity.
Qed.

(** ** Totals *)

Section Totals.
Import BudgetCalculator.



End Totals.

(** ** The first tracked month *)

Section FirstMonth.
Import MonthNavigation.
Variable env : DateEnv.

(** On valid timestamps the sort puts a transaction of least time first. *)
Lemma sort_head_earliest (l : list Transaction.t) :
  (forall t, In t l -> exists z, parse env (Transaction.timestamp t) = Some z) ->
  l <> [] ->
  exists first rest time,
    sort (byTimestamp env) l = first :: rest
    /\ In first l
    /\ parse env (Transaction.timestamp first) = Some time
    /\ forall t z, In t l ->
                   parse env (Transaction.timestamp t) = Some z -> time <= z.
Proof.
  induction l as [|x l IH]; intros Hvalid Hne; [contradiction|].
  destruct (Hvalid x (or_introl eq_refl)) as [zx Hx].
  destruct l as [|y l'].
  - exists x, [], zx. simpl. repeat split; auto.
    intros t z [<- | []] Ht. rewrite Hx in Ht. injection Ht as <-. lia.
  - destruct IH as (f & r & zf & Hsort & Hin & Hf & Hmin).
    { intros t Ht. apply Hvalid. right. exact Ht. }
    { discriminate. }
    change (sort (byTimestamp env) (x :: y :: l'))
      with (insertSorted (byTimestamp env) x
              (sort (byTimestamp env) (y :: l'))).
    rewrite Hsort. cbn [insertSorted].
    unfold byTimestamp at 1, Date.getTime, Date.ofString.
    rewrite Hx, Hf. cbn [JS.sub JS.lt].
    destruct (0 <? zx - zf) eqn:Hcmp.
    + apply Z.ltb_lt in Hcmp.
      exists f, (insertSorted (byTimestamp env) x r), zf.
      repeat split; auto.
      * right. exact Hin.
      * intros t z [<- | Ht] Hz.
        -- rewrite Hx in Hz. injection Hz as <-. lia.
        -- exact (Hmin t z Ht Hz).
    + apply Z.ltb_ge in Hcmp.
      exists x, (f :: r), zx.
      repeat split; auto.
      * left. reflexivity.
      * intros t z [<- | Ht] Hz.
        -- rewrite Hx in Hz. injection Hz as <-. lia.
        -- pose proof (Hmin t z Ht Hz). lia.
Qed.

Lemma getFirstTrackedMonth_earliest (transactions : list Transaction.t) :
  (forall t, In t transactions ->
             exists z, parse env (Transaction.timestamp t) = Some z) ->
  transactions <> [] ->
  exists first time,
    In first transactions
    /\ parse env (Transaction.timestamp first) = Some time
    /\ (forall t z, In t transactions ->
                    parse env (Transaction.timestamp t) = Some z -> time <= z)
    /\ getFirstTrackedMonth env transactions
       = JS.toString (Some (fullYear env time)) ++ "-"
         ++ JS.padStart 2 "0" (JS.toString (Some (monthIndex env time + 1))).
Proof.
  intros Hvalid Hne.
  destruct (sort_head_earliest transactions Hvalid Hne)
    as (first & rest & time & Hsort & Hin & Htime & Hmin).
  exists first, time. repeat split; auto.
  unfold getFirstTrackedMonth. rewrite Hsort.
  destruct transactions as [|t0 l]; [contradiction|].
  replace (0 <? Z.of_nat (Datatypes.length (t0 :: l))) with true
    by (symmetry; apply Z.ltb_lt; simpl Datatypes.length; lia).
  unfold Date.ofString. rewrite Htime. reflexivity.
Qed.

End FirstMonth.

(** ** The summary returns on well-formed collections *)

Lemma calculateBudgetSummary_returns
    (env : DateEnv) (monthYear : string) (transactions : list Transaction.t)
    (budgets : list MonthlyBudget.t) (defaultBudgetAmount : Z) :
  Spec.wellFormedBudgets budgets ->
  exists fuel s,
    forall fuel', (fuel <= fuel')%nat ->
      BudgetCalculator.calculateBudgetSummary env fuel' monthYear transactions
        budgets defaultBudgetAmount = Some s.
Proof.
  intro Hok.
  destruct (completes_any env transactions budgets Hok monthYear)
    as (d & v & (Hdone & _) & _).
  exists (S d). unfold BudgetCalculator.calculateBudgetSummary.
  destruct (BudgetCalculator.findBudget budgets monthYear) as [b|].
  - destruct (MonthlyBudget.rollover_enabled b).
    + eexists. intros fuel' Hle. rewrite (Hdone fuel') by lia. reflexivity.
    + eexists. intros fuel' _. reflexivity.
  - eexists. intros fuel' Hle. rewrite (Hdone fuel') by lia. reflexivity.
Qed.

(** The end-to-end scenario: October has 1200.00 and ends 100.00 over,
    November has 900.00. *)
Example scenario_october_november :
  option_map
    (fun s => (BudgetSummary.budget_amount s,
               BudgetSummary.remaining_budget s,
               BudgetSummary.is_over_budget s))
    (BudgetCalculator.calculateBudgetSummary Sample.dev 3 "2025-10"
       Sample.transactions Sample.budgets 100000)
  = Some (120000, -10000, true)
  /\ option_map BudgetSummary.budget_amount
       (BudgetCalculator.calculateBudgetSummary Sample.dev 3 "2025-11"
          Sample.transactions Sample.budgets 100000)
     = Some 90000.
Proof. split; reflexivity. Qed.

(** ** The claims *)

Section Claims.
Import BudgetCalculator.









Lemma sample_budgets_wellFormed : Spec.wellFormedBudgets Sample.budgets.
Proof.
  split.
  - repeat constructor.
  - simpl. repeat constructor; simpl; intuition discriminate.
Defined.


(** C5.  In every summary that [calculateBudgetSummary] returns, the
    remaining budget is the effective amount minus the total of the month,
    and the over-budget flag is set exactly when the remaining budget is
    negative: a remaining budget of 0 leaves it unset, a negative one (such
    as -0.01) sets it. *)
Theorem summary_remaining_and_over_budget
    (env : DateEnv) (fuel : nat) (monthYear : string)
    (transactions : list Transaction.t) (budgets : list MonthlyBudget.t)
    (defaultBudgetAmount : Z) (s : BudgetSummary.t) :
  calculateBudgetSummary env fuel monthYear transactions budgets
    defaultBudgetAmount = Some s ->
  BudgetSummary.total_transactions s
  = calculateTotalForMonth env transactions monthYear
  /\ BudgetSummary.remaining_budget s
     = BudgetSummary.budget_amount s - BudgetSummary.total_transactions s
  /\ (BudgetSummary.is_over_budget s = true
      <-> BudgetSummary.remaining_budget s < 0)
  /\ (BudgetSummary.remaining_budget s = 0 ->
      BudgetSummary.is_over_budget s = false)
  /\ (BudgetSummary.remaining_budget s <= -1 ->
      BudgetSummary.is_over_budget s = true).
Proof.
  unfold calculateBudgetSummary. intro H.
  match type of H with
  | bind ?budget _ = _ => destruct budget as [b|]; [|discriminate H]
  end.
  simpl in H. injection H as <-. simpl.
  split; [reflexivity|]. split; [reflexivity|].
  split; [apply Z.ltb_lt|]. split.
  - intros ->. reflexivity.
  - intro Hneg. apply Z.ltb_lt. lia.
Qed.

Lemma summary_remaining_and_over_budget_witness :
  exists s,
    calculateBudgetSummary Sample.dev 5 "2025-10" Sample.transactions
      Sample.budgets 100000 = Some s
    /\ BudgetSummary.remaining_budget s = -10000
    /\ (BudgetSummary.is_over_budget s = true
        <-> BudgetSummary.remaining_budget s < 0).
Proof.
  eexists. split; [reflexivity|]. split; [reflexivity|].
  exact (proj1 (proj2 (proj2
           (summary_remaining_and_over_budget Sample.dev 5 "2025-10"
              Sample.transactions Sample.budgets 100000 _ eq_refl)))).
Defined.




(** C7.  [getFirstTrackedMonth] returns the current month on an empty
    list and, on valid timestamps, the month of a transaction of least
    time.  When no budget record exists for the months before the month it
    returns, the carry-in of that month is 0: this holds with the months
    before taken as the months that [getPreviousMonth] reaches, and, for a
    well-formed key after 1000-01, with the months before taken as the keys
    ordered before it. *)
Theorem first_tracked_month_has_no_carry_in
    (env : DateEnv) (transactions : list Transaction.t) :
  (transactions = [] ->
   MonthNavigation.getFirstTrackedMonth env transactions
   = MonthNavigation.getCurrentMonth env)
  /\ ((forall t, In t transactions ->
                 exists z, parse env (Transaction.timestamp t) = Some z) ->
      transactions <> [] ->
      exists first time,
        In first transactions
        /\ parse env (Transaction.timestamp first) = Some time
        /\ (forall t z, In t transactions ->
                        parse env (Transaction.timestamp t) = Some z ->
                        time <= z)
        /\ MonthNavigation.getFirstTrackedMonth env transactions
           = JS.toString (Some (fullYear env time)) ++ "-"
             ++ JS.padStart 2 "0"
                  (JS.toString (Some (monthIndex env time + 1))))
  /\ (forall budgets fuel,
        (forall i b, (1 <= i)%nat -> In b budgets ->
           MonthlyBudget.month_year b
           <> Spec.precedingMonth i
                (MonthNavigation.getFirstTrackedMonth env transactions)) ->
        calculateRolloverAmount env (S fuel) transactions budgets
          (MonthNavigation.getFirstTrackedMonth env transactions)
        = Some 0)
  /\ (forall budgets fuel,
        MonthKey.wellFormed
          (MonthNavigation.getFirstTrackedMonth env transactions) = true ->
        MonthKey.before "1000-01"
          (MonthNavigation.getFirstTrackedMonth env transactions) = true ->
        (forall b, In b budgets ->
           MonthKey.before (MonthlyBudget.month_year b)
             (MonthNavigation.getFirstTrackedMonth env transactions)
           = false) ->
        calculateRolloverAmount env (S fuel) transactions budgets
          (MonthNavigation.getFirstTrackedMonth env transactions)
        = Some 0).
Proof.
  split; [|split; [|split]].
  - intros ->. reflexivity.
  - apply getFirstTrackedMonth_earliest.
  - intros budgets fuel Hnone.
    rewrite calculateRolloverAmount_step.
    rewrite (findBudget_absent budgets); [reflexivity|].
    intros b Hin. exact (Hnone 1%nat b (le_n 1) Hin).
  - intros budgets fuel Hwf Hafter Hnone.
    destruct (previous_key _ Hwf (after_1000 _ Hwf Hafter))
      as (_ & _ & _ & _ & Hbefore).
    rewrite calculateRolloverAmount_step.
    rewrite (findBudget_absent budgets); [reflexivity|].
    intros b Hin Heq. rewrite <- Heq, (Hnone b Hin) in Hbefore.
    discriminate Hbefore.
Qed.

Lemma first_tracked_month_has_no_carry_in_witness :
  MonthNavigation.getFirstTrackedMonth Sample.dev Sample.transactions
  = "2025-09"
  /\ calculateRolloverAmount Sample.dev 1 Sample.transactions Sample.budgets
       (MonthNavigation.getFirstTrackedMonth Sample.dev Sample.transactions)
     = Some 0.
Proof.
  split; [reflexivity|].
  refine (proj2 (proj2 (proj2
            (first_tracked_month_has_no_carry_in Sample.dev
               Sample.transactions)))
            Sample.budgets 0%nat eq_refl eq_refl _).
  intros b [<- | [<- | [<- | []]]]; reflexivity.
Defined.

(** C8 (amended).  For a month with no transaction and no budget record,
    the summary has a total of 0, rollover enabled, an effective amount of
    [defaultBudgetAmount] plus the carry-in, and a remaining budget equal
    to the effective amount; it is over budget exactly when the effective
    amount is negative, hence never when the effective amount is at least
    0. *)
Theorem summary_of_fresh_empty_month
    (env : DateEnv) (fuel : nat) (monthYear : string)
    (transactions : list Transaction.t) (budgets : list MonthlyBudget.t)
    (defaultBudgetAmount carry : Z) :
  getTransactionsForMonth env transactions monthYear = [] ->
  (forall b, In b budgets -> MonthlyBudget.month_year b <> monthYear) ->
  calculateRolloverAmount env fuel transactions budgets monthYear
  = Some carry ->
  exists s,
    calculateBudgetSummary env fuel monthYear transactions budgets
      defaultBudgetAmount = Some s
    /\ BudgetSummary.total_transactions s = 0
    /\ BudgetSummary.rollover_enabled s = true
    /\ BudgetSummary.budget_amount s = defaultBudgetAmount + carry
    /\ BudgetSummary.remaining_budget s = BudgetSummary.budget_amount s
    /\ BudgetSummary.is_over_budget s = (defaultBudgetAmount + carry <? 0)
    /\ (0 <= defaultBudgetAmount + carry ->
        BudgetSummary.is_over_budget s = false).
Proof.
  intros Hempty Hnone Hcarry.
  unfold calculateBudgetSummary, calculateTotalForMonth.
  rewrite (findBudget_absent budgets monthYear Hnone), Hcarry, Hempty.
  simpl. eexists. split; [reflexivity|]. simpl.
  rewrite Z.sub_0_r.
  repeat (split; [reflexivity|]).
  intro Hpos. apply Z.ltb_ge. exact Hpos.
Qed.

Lemma summary_of_fresh_empty_month_witness :
  (getTransactionsForMonth Sample.dev Sample.transactions "2025-12" = []
   /\ findBudget Sample.budgets "2025-12" = None)
  /\ exists s,
       calculateBudgetSummary Sample.dev 4 "2025-12" Sample.transactions
         Sample.budgets 100000 = Some s
       /\ BudgetSummary.total_transactions s = 0
       /\ BudgetSummary.rollover_enabled s = true
       /\ BudgetSummary.budget_amount s = 100000 + 90000
       /\ BudgetSummary.remaining_budget s = BudgetSummary.budget_amount s
       /\ BudgetSummary.is_over_budget s = (100000 + 90000 <? 0)
       /\ (0 <= 100000 + 90000 -> BudgetSummary.is_over_budget s = false).
Proof.
  split; [split; reflexivity|].
  refine (summary_of_fresh_empty_month Sample.dev 4 "2025-12"
            Sample.transactions Sample.budgets 100000 90000
            eq_refl _ eq_refl).
  intros b [<- | [<- | [<- | []]]]; discriminate.
Defined.

(** C8, as stated, fails: October 2025 has no transaction and no record,
    September overspent its amount of 1000.00 by 4000.00, and with a default
    of 1000.00 the summary of October is over budget. *)
Lemma fresh_empty_month_over_budget :
  getTransactionsForMonth Sample.dev Sample.overspent "2025-10" = []
  /\ (forall b, In b Sample.septemberOnly ->
                MonthlyBudget.month_year b <> "2025-10")
  /\ exists s,
       calculateBudgetSummary Sample.dev 1 "2025-10" Sample.overspent
         Sample.septemberOnly 100000 = Some s
       /\ BudgetSummary.total_transactions s = 0
       /\ BudgetSummary.remaining_budget s = -300000
       /\ BudgetSummary.is_over_budget s = true.
Proof.
  split; [reflexivity|]. split.
  - intros b [<- | []]. discriminate.
  - eexists. split; [reflexivity|]. repeat split.
Qed.

(** C9 (amended).  On a well-formed key, [getPreviousMonth] returns the
    well-formed key of the month before, ordered before it as a string and
    mapped back by [getNextMonth], unless the key is a January of a year
    below 1001; [getNextMonth] returns the well-formed key of the month
    after, ordered after it and mapped back by [getPreviousMonth], unless
    the key is a December of a year outside 1000..9998.  December and
    January are joined across the change of year.  [MonthNavigation] and
    [BudgetCalculator] define the same two functions. *)
Theorem adjacent_month_keys (k : string) :
  MonthKey.wellFormed k = true ->
  (MonthKey.month k <> 1 \/ 1001 <= MonthKey.year k ->
   MonthKey.wellFormed (getPreviousMonth k) = true
   /\ (MonthKey.month k = 1 ->
       MonthKey.year (getPreviousMonth k) = MonthKey.year k - 1
       /\ MonthKey.month (getPreviousMonth k) = 12)
   /\ (MonthKey.month k <> 1 ->
       MonthKey.year (getPreviousMonth k) = MonthKey.year k
       /\ MonthKey.month (getPreviousMonth k) = MonthKey.month k - 1)
   /\ getNextMonth (getPreviousMonth k) = k
   /\ MonthKey.before (getPreviousMonth k) k = true)
  /\ (MonthKey.month k <> 12 \/ 1000 <= MonthKey.year k <= 9998 ->
      MonthKey.wellFormed (getNextMonth k) = true
      /\ (MonthKey.month k = 12 ->
          MonthKey.year (getNextMonth k) = MonthKey.year k + 1
          /\ MonthKey.month (getNextMonth k) = 1)
      /\ (MonthKey.month k <> 12 ->
          MonthKey.year (getNextMonth k) = MonthKey.year k
          /\ MonthKey.month (getNextMonth k) = MonthKey.month k + 1)
      /\ getPreviousMonth (getNextMonth k) = k
      /\ MonthKey.before k (getNextMonth k) = true)
  /\ MonthNavigation.getPreviousMonth k = getPreviousMonth k
  /\ MonthNavigation.getNextMonth k = getNextMonth k.
Proof.
  intro Hwf. split; [|split; [|split]].
  - apply previous_key. exact Hwf.
  - apply next_key. exact Hwf.
  - reflexivity.
  - reflexivity.
Qed.

Lemma adjacent_month_keys_witness :
  MonthKey.wellFormed "2025-01" = true
  /\ getPreviousMonth "2025-01" = "2024-12"
  /\ getNextMonth (getPreviousMonth "2025-01") = "2025-01"
  /\ MonthKey.before (getPreviousMonth "2025-01") "2025-01" = true.
Proof.
  split; [reflexivity|]. split; [reflexivity|].
  destruct (proj1 (adjacent_month_keys "2025-01" eq_refl))
    as (_ & _ & _ & Hback & Hbefore).
  - right. vm_compute. discriminate.
  - split; assumption.
Defined.

(** C9, as stated, fails on 1000-01: the key is well formed, the key that
    [getPreviousMonth] returns is 999-12, which is not, and which is not
    ordered before 1000-01. *)
Lemma previous_of_1000_01 :
  MonthKey.wellFormed "1000-01" = true
  /\ getPreviousMonth "1000-01" = "999-12"
  /\ MonthNavigation.getPreviousMonth "1000-01" = "999-12"
  /\ MonthKey.wellFormed (getPreviousMonth "1000-01") = false
  /\ MonthKey.before (getPreviousMonth "1000-01") "1000-01" = false.
Proof. repeat split. Qed.



End Claims.

(** * Further properties *)

(** ** The order of keys *)

Section KeyOrder.
Import MonthKey.

Lemma ascii_compare_digitOf (x y : ascii) :
  Ascii.compare x y = Z.compare (digitOf x) (digitOf y).
Proof.
  unfold Ascii.compare, digitOf.
  rewrite <- N2Z.inj_compare.
  destruct (Z.compare_spec (Z.of_N (N_of_ascii x)) (Z.of_N (N_of_ascii y)));
    symmetry;
    [apply Z.compare_eq_iff | apply Z.compare_lt_iff | apply Z.compare_gt_iff];
    lia.
Qed.

Lemma monthChars_digits (mm : ascii * ascii) :
  In mm monthChars ->
  isDigit (fst mm) = true /\ isDigit (snd mm) = true
  /\ 1 <= twoDigits (fst mm) (snd mm) <= 12.
Proof.
  simpl. intro H.
  repeat (destruct H as [<- | H]; [vm_compute; intuition discriminate|]).
  contradiction.
Qed.

(** On well-formed keys the order of strings is the order of the
    calendar. *)
Lemma compare_ordinal (k1 k2 : string) :
  wellFormed k1 = true -> wellFormed k2 = true ->
  String.compare k1 k2 = Z.compare (ordinal k1) (ordinal k2).
Proof.
  intros H1 H2.
  destruct (wellFormed_make k1 H1)
    as (a & b & c & d & [e f] & -> & Hmm & Ha & Hb & Hc & Hd).
  destruct (wellFormed_make k2 H2)
    as (a' & b' & c' & d' & [e' f'] & -> & Hmm' & Ha' & Hb' & Hc' & Hd').
  destruct (monthChars_digits _ Hmm) as (He & Hf & Hm).
  destruct (monthChars_digits _ Hmm') as (He' & Hf' & Hm').
  simpl fst in *; simpl snd in *.
  pose proof (digitOf_range a Ha). pose proof (digitOf_range b Hb).
  pose proof (digitOf_range c Hc). pose proof (digitOf_range d Hd).
  pose proof (digitOf_range e He). pose proof (digitOf_range f Hf).
  pose proof (digitOf_range a' Ha'). pose proof (digitOf_range b' Hb').
  pose proof (digitOf_range c' Hc'). pose proof (digitOf_range d' Hd').
  pose proof (digitOf_range e' He'). pose proof (digitOf_range f' Hf').
  unfold make, ordinal, year, month, fourDigits, twoDigits in *.
  cbn [String.compare fst snd].
  rewrite !ascii_compare_digitOf.
  change (digitOf "-" ?= digitOf "-") with Eq.
  repeat match goal with
  | |- context [match (?x ?= ?y) with _ => _ end] =>
      destruct (Z.compare_spec x y)
  end;
  symmetry;
  first [ apply Z.compare_eq_iff; lia
        | apply Z.compare_lt_iff; lia
        | apply Z.compare_gt_iff; lia ].
Qed.

Lemma before_ordinal (k1 k2 : string) :
  wellFormed k1 = true -> wellFormed k2 = true ->
  (before k1 k2 = true <-> ordinal k1 < ordinal k2).
Proof.
  intros H1 H2. unfold before, String.ltb.
  rewrite (compare_ordinal k1 k2 H1 H2).
  destruct (Z.compare_spec (ordinal k1) (ordinal k2)); split; intros;
    try reflexivity; try discriminate; lia.
Qed.

Lemma leb_ordinal (k1 k2 : string) :
  wellFormed k1 = true -> wellFormed k2 = true ->
  (String.leb k1 k2 = true <-> ordinal k1 <= ordinal k2).
Proof.
  intros H1 H2. unfold String.leb.
  rewrite (compare_ordinal k1 k2 H1 H2).
  destruct (Z.compare_spec (ordinal k1) (ordinal k2)); split; intros;
    try reflexivity; try discriminate; lia.
Qed.

(** Two well-formed keys of the same calendar month are the same string. *)
Lemma ordinal_injective (k1 k2 : string) :
  wellFormed k1 = true -> wellFormed k2 = true ->
  ordinal k1 = ordinal k2 -> k1 = k2.
Proof.
  intros H1 H2 Heq. apply String.compare_eq_iff.
  rewrite (compare_ordinal k1 k2 H1 H2). apply Z.compare_eq_iff. exact Heq.
Qed.

End KeyOrder.

(** ** Lists of months *)

Section MonthLists.
Import MonthKey.
Import MonthNavigation.

Lemma followingMonth_shift (i : nat) (m : string) :
  Spec.followingMonth (S i) m
  = Spec.followingMonth i (BudgetCalculator.getNextMonth m).
Proof.
  induction i as [|i IH].
  - reflexivity.
  - change (Spec.followingMonth (S (S i)) m)
      with (Spec.nextMonth (Spec.followingMonth (S i) m)).
    rewrite IH. reflexivity.
Qed.

Lemma nextLoop_closed (rounds : nat) (months : list string) (current : string) :
  nextLoop rounds months current
  = (months ++ map (fun i => Spec.followingMonth i current) (seq 0 rounds))%list.
Proof.
  revert months current. induction rounds as [|n IH]; intros months current.
  - simpl. rewrite app_nil_r. reflexivity.
  - cbn [nextLoop]. rewrite IH. rewrite <- app_assoc. f_equal.
    cbn [seq map app]. f_equal.
    rewrite <- seq_shift, map_map.
    apply map_ext. intro i. symmetry. apply followingMonth_shift.
Qed.

Lemma lastLoop_closed (rounds : nat) (months : list string) (current : string) :
  lastLoop rounds months current
  = (rev (map (fun i => Spec.precedingMonth i current) (seq 0 rounds))
     ++ months)%list.
Proof.
  revert months current. induction rounds as [|n IH]; intros months current.
  - reflexivity.
  - cbn [lastLoop]. rewrite IH. cbn [seq map rev].
    rewrite <- seq_shift, map_map. rewrite <- app_assoc. cbn [app].
    f_equal. f_equal. apply map_ext. intro i. symmetry.
    apply precedingMonth_shift.
Qed.

(** Going forward from a well-formed key of year 1000 or later, as long as
    the calendar number stays up to that of 9999-12. *)
Lemma followingMonth_ordinal (i : nat) (k : string) :
  wellFormed k = true -> 1000 <= year k ->
  ordinal k + Z.of_nat i <= 12 * 9999 + 11 ->
  wellFormed (Spec.followingMonth i k) = true
  /\ ordinal (Spec.followingMonth i k) = ordinal k + Z.of_nat i.
Proof.
  intros Hwf Hy. induction i as [|i IH]; intro Hroom.
  - simpl. split; [exact Hwf | lia].
  - destruct IH as [Hwfi Hordi]; [lia|].
    cbn [Spec.followingMonth]. unfold Spec.nextMonth.
    pose proof (wellFormed_range _ Hwfi) as [Hyi Hmi].
    pose proof (wellFormed_range _ Hwf) as [Hyk Hmk].
    assert (Hrange : month (Spec.followingMonth i k) <> 12
                     \/ 1000 <= year (Spec.followingMonth i k) <= 9998)
      by (unfold ordinal in *; lia).
    destruct (next_key _ Hwfi Hrange) as (Hwfn & Hdec & Hother & _ & _).
    split; [exact Hwfn|].
    unfold ordinal in *.
    destruct (Z.eq_dec (month (Spec.followingMonth i k)) 12) as [Hm | Hm].
    + destruct (Hdec Hm) as [-> ->]. lia.
    + destruct (Hother Hm) as [-> ->]. lia.
Qed.

(** Going back from a well-formed key, as long as the calendar number stays
    from that of 1000-01 on. *)
Lemma precedingMonth_ordinal (i : nat) (k : string) :
  wellFormed k = true ->
  12 * 1000 <= ordinal k - Z.of_nat i ->
  wellFormed (Spec.precedingMonth i k) = true
  /\ ordinal (Spec.precedingMonth i k) = ordinal k - Z.of_nat i.
Proof.
  intros Hwf. induction i as [|i IH]; intro Hroom.
  - simpl. split; [exact Hwf | lia].
  - destruct IH as [Hwfi Hordi]; [lia|].
    cbn [Spec.precedingMonth]. unfold Spec.previousMonth.
    pose proof (wellFormed_range _ Hwfi) as [Hyi Hmi].
    assert (Hrange : month (Spec.precedingMonth i k) <> 1
                     \/ 1001 <= year (Spec.precedingMonth i k))
      by (unfold ordinal in *; lia).
    destruct (previous_key _ Hwfi Hrange) as (Hwfp & Hjan & Hother & _ & _).
    split; [exact Hwfp|].
    unfold ordinal in *.
    destruct (Z.eq_dec (month (Spec.precedingMonth i k)) 1) as [Hm | Hm].
    + destruct (Hjan Hm) as [-> ->]. lia.
    + destruct (Hother Hm) as [-> ->]. lia.
Qed.

Lemma getNextNMonths_nth (fromMonth : string) (count : Z) (i : nat) :
  (i < Z.to_nat count)%nat ->
  nth_error (getNextNMonths fromMonth count) i
  = Some (Spec.followingMonth i fromMonth).
Proof.
  intro Hi. unfold getNextNMonths. rewrite nextLoop_closed. cbn [app].
  rewrite nth_error_map, nth_error_seq.
  destruct (Nat.ltb_spec i (Z.to_nat count)); [reflexivity | lia].
Qed.

Lemma getNextNMonths_length (fromMonth : string) (count : Z) :
  List.length (getNextNMonths fromMonth count) = Z.to_nat count.
Proof.
  unfold getNextNMonths. rewrite nextLoop_closed. cbn [app].
  rewrite length_map, length_seq. reflexivity.
Qed.

End MonthLists.

Section CalendarExtras.
Import MonthKey.
Import MonthNavigation.

(** The keys that [getNextNMonths] returns from a well-formed key. *)
Lemma getNextNMonths_elements (fromMonth : string) (count : Z) :
  wellFormed fromMonth = true -> 1000 <= year fromMonth ->
  ordinal fromMonth + count - 1 <= 12 * 9999 + 11 ->
  List.length (getNextNMonths fromMonth count) = Z.to_nat count
  /\ (forall i k, nth_error (getNextNMonths fromMonth count) i = Some k ->
        wellFormed k = true /\ ordinal k = ordinal fromMonth + Z.of_nat i)
  /\ (forall i j k1 k2, (i < j)%nat ->
        nth_error (getNextNMonths fromMonth count) i = Some k1 ->
        nth_error (getNextNMonths fromMonth count) j = Some k2 ->
        before k1 k2 = true).
Proof.
  intros Hwf Hy Hroom.
  assert (Helem : forall i k,
            nth_error (getNextNMonths fromMonth count) i = Some k ->
            wellFormed k = true /\ ordinal k = ordinal fromMonth + Z.of_nat i).
  { intros i k Hnth.
    assert (Hi : (i < Z.to_nat count)%nat).
    { rewrite <- (getNextNMonths_length fromMonth count).
      apply nth_error_Some. rewrite Hnth. discriminate. }
    rewrite (getNextNMonths_nth _ _ _ Hi) in Hnth. injection Hnth as <-.
    apply followingMonth_ordinal; [exact Hwf | exact Hy | lia]. }
  split; [apply getNextNMonths_length|]. split; [exact Helem|].
  intros i j k1 k2 Hij H1 H2.
  destruct (Helem i k1 H1) as [Hwf1 Ho1].
  destruct (Helem j k2 H2) as [Hwf2 Ho2].
  apply (before_ordinal k1 k2 Hwf1 Hwf2). lia.
Qed.

(** X1.  From a well-formed key of year 1000 or later, and as long as the
    last month asked for is not after 9999-12, [getNextNMonths] returns
    [count] keys, all well formed, the [i]-th on the [i]-th calendar month
    after [fromMonth], in strictly ascending order of strings. *)
Theorem getNextNMonths_consecutive (fromMonth : string) (count : Z) :
  wellFormed fromMonth = true -> 1000 <= year fromMonth ->
  ordinal fromMonth + count - 1 <= 12 * 9999 + 11 ->
  List.length (getNextNMonths fromMonth count) = Z.to_nat count
  /\ (forall i k, nth_error (getNextNMonths fromMonth count) i = Some k ->
        wellFormed k = true /\ ordinal k = ordinal fromMonth + Z.of_nat i)
  /\ (forall i j k1 k2, (i < j)%nat ->
        nth_error (getNextNMonths fromMonth count) i = Some k1 ->
        nth_error (getNextNMonths fromMonth count) j = Some k2 ->
        before k1 k2 = true).
Proof. apply getNextNMonths_elements. Qed.

Lemma getNextNMonths_consecutive_witness :
  wellFormed "2025-11" = true
  /\ List.length (getNextNMonths "2025-11" 4) = 4%nat.
Proof.
  split; [reflexivity|].
  refine (proj1 (getNextNMonths_consecutive "2025-11" 4 eq_refl _ _)).
  - vm_compute. discriminate.
  - vm_compute. discriminate.
Defined.

(** X2.  From a well-formed key, and as long as the first month asked for
    is not before 1000-01, [getLastNMonths] returns the same list as
    [getNextNMonths] started [count - 1] months earlier: [count] well-formed
    keys in ascending order that end with [fromMonth]. *)
Theorem getLastNMonths_is_getNextNMonths (fromMonth : string) (count : Z) :
  wellFormed fromMonth = true ->
  0 < count ->
  12 * 1000 <= ordinal fromMonth - (count - 1) ->
  getLastNMonths fromMonth count
  = getNextNMonths
      (Spec.precedingMonth (Z.to_nat count - 1) fromMonth) count
  /\ nth_error (getLastNMonths fromMonth count) (Z.to_nat count - 1)
     = Some fromMonth.
Proof.
  intros Hwf Hpos Hroom.
  set (n := Z.to_nat count).
  assert (Hn : (0 < n)%nat) by (unfold n; lia).
  assert (Hlast : forall i,
            nth_error (getLastNMonths fromMonth count) i
            = if (i <? n)%nat
              then Some (Spec.precedingMonth (n - S i) fromMonth)
              else None).
  { intro i. unfold getLastNMonths. fold n. rewrite lastLoop_closed.
    rewrite app_nil_r, nth_error_rev, length_map, length_seq.
    destruct (Nat.ltb_spec i n) as [Hi | Hi]; [|reflexivity].
    rewrite nth_error_map, nth_error_seq.
    destruct (Nat.ltb_spec (n - S i) n); [reflexivity | lia]. }
  split.
  - apply nth_error_ext. intro i. rewrite Hlast.
    destruct (Nat.ltb_spec i n) as [Hi | Hi].
    + rewrite getNextNMonths_nth by (fold n; exact Hi). f_equal.
      destruct (precedingMonth_ordinal (n - 1) fromMonth Hwf)
        as [Hwfs Hos]; [unfold n; lia|].
      destruct (precedingMonth_ordinal (n - S i) fromMonth Hwf)
        as [Hwfp Hop]; [unfold n in *; lia|].
      pose proof (wellFormed_range _ Hwfs) as [Hys Hms].
      pose proof (wellFormed_range _ Hwf) as [Hyf Hmf].
      destruct (followingMonth_ordinal i
                  (Spec.precedingMonth (n - 1) fromMonth) Hwfs)
        as [Hwff Hof].
      { unfold ordinal in *. unfold n in *. lia. }
      { unfold ordinal in *. unfold n in *. lia. }
      apply ordinal_injective; [exact Hwfp | exact Hwff |].
      rewrite Hop, Hof, Hos. lia.
    + symmetry. apply nth_error_None.
      rewrite getNextNMonths_length. fold n. exact Hi.
  - rewrite Hlast. fold n.
    destruct (Nat.ltb_spec (n - 1) n); [|lia].
    replace (n - S (n - 1))%nat with 0%nat by lia. reflexivity.
Qed.

Lemma getLastNMonths_is_getNextNMonths_witness :
  wellFormed "2025-02" = true
  /\ getLastNMonths "2025-02" 4 = getNextNMonths "2024-11" 4.
Proof.
  split; [reflexivity|].
  refine (proj1 (getLastNMonths_is_getNextNMonths "2025-02" 4 eq_refl
                   eq_refl _)).
  vm_compute. discriminate.
Defined.

Lemma betweenLoop_returns (endMonth : string) :
  wellFormed endMonth = true -> year endMonth <= 9998 ->
  forall rounds months current fuel,
    wellFormed current = true -> 1000 <= year current ->
    Z.of_nat rounds = Z.max 0 (ordinal endMonth - ordinal current + 1) ->
    (rounds < fuel)%nat ->
    betweenLoop fuel months current endMonth
    = Some (nextLoop rounds months current).
Proof.
  intros Hwfe Hye.
  pose proof (wellFormed_range _ Hwfe) as [Hyer Hmer].
  induction rounds as [|r IH]; intros months current fuel Hwf Hy Hr Hfuel.
  - destruct fuel as [|fuel]; [lia|]. cbn [betweenLoop nextLoop].
    destruct (String.leb current endMonth) eqn:Hle; [|reflexivity].
    apply (proj1 (leb_ordinal current endMonth Hwf Hwfe)) in Hle.
    exfalso. lia.
  - destruct fuel as [|fuel]; [lia|]. cbn [betweenLoop nextLoop].
    assert (Hle : ordinal current <= ordinal endMonth) by lia.
    rewrite (proj2 (leb_ordinal current endMonth Hwf Hwfe) Hle).
    pose proof (wellFormed_range _ Hwf) as [Hyc Hmc].
    assert (Hrange : month current <> 12 \/ 1000 <= year current <= 9998)
      by (unfold ordinal in *; lia).
    destruct (next_key _ Hwf Hrange) as (Hwfn & Hdec & Hother & _ & _).
    assert (Hnext : ordinal (BudgetCalculator.getNextMonth current)
                    = ordinal current + 1
                    /\ 1000 <= year (BudgetCalculator.getNextMonth current)).
    { unfold ordinal.
      destruct (Z.eq_dec (month current) 12) as [Hm | Hm].
      - destruct (Hdec Hm) as [-> ->]. lia.
      - destruct (Hother Hm) as [-> ->]. lia. }
    destruct Hnext as [Hon Hyn].
    change (getNextMonth current)
      with (BudgetCalculator.getNextMonth current).
    apply IH; [exact Hwfn | exact Hyn | lia | lia].
Qed.

(** X3.  For well-formed keys with the start in year 1000 or later and
    the end in year 9998 or earlier, [getMonthsBetween] returns, and its
    result holds exactly the well-formed keys from [startMonth] to
    [endMonth] in the order of the calendar: it is the list that
    [getNextNMonths] gives for the number of months of the interval, and it
    is empty when [endMonth] is before [startMonth]. *)
Theorem getMonthsBetween_interval (startMonth endMonth : string) :
  wellFormed startMonth = true -> wellFormed endMonth = true ->
  1000 <= year startMonth -> year endMonth <= 9998 ->
  exists months,
    (forall fuel,
       (Z.to_nat (ordinal endMonth - ordinal startMonth + 1) < fuel)%nat ->
       getMonthsBetween fuel startMonth endMonth = Some months)
    /\ months
       = getNextNMonths startMonth (ordinal endMonth - ordinal startMonth + 1)
    /\ (before endMonth startMonth = true -> months = [])
    /\ (forall k, wellFormed k = true ->
          (In k months
           <-> ordinal startMonth <= ordinal k <= ordinal endMonth)).
Proof.
  intros Hwfs Hwfe Hys Hye.
  set (count := ordinal endMonth - ordinal startMonth + 1).
  exists (getNextNMonths startMonth count).
  pose proof (wellFormed_range _ Hwfe) as [Hyer Hmer].
  pose proof (wellFormed_range _ Hwfs) as [Hysr Hmsr].
  assert (Hroom : ordinal startMonth + count - 1 <= 12 * 9999 + 11)
    by (unfold count, ordinal in *; lia).
  destruct (getNextNMonths_elements startMonth count Hwfs Hys Hroom)
    as (Hlen & Helem & _).
  split; [|split; [reflexivity|split]].
  - intros fuel Hfuel. unfold getMonthsBetween, getNextNMonths.
    apply (betweenLoop_returns endMonth Hwfe Hye); try assumption.
    fold count. lia.
  - intro Hbefore.
    apply (before_ordinal endMonth startMonth Hwfe Hwfs) in Hbefore.
    apply length_zero_iff_nil. rewrite Hlen. unfold count. lia.
  - intros k Hwfk. split.
    + intro Hin. apply In_nth_error in Hin. destruct Hin as [i Hi].
      destruct (Helem i k Hi) as [_ Hok].
      assert (Hlt : (i < Z.to_nat count)%nat).
      { rewrite <- Hlen. apply nth_error_Some. rewrite Hi. discriminate. }
      unfold count in *. lia.
    + intros [Hlo Hhi].
      set (i := Z.to_nat (ordinal k - ordinal startMonth)).
      assert (Hi : (i < Z.to_nat count)%nat) by (unfold i, count; lia).
      pose proof (getNextNMonths_nth startMonth count i Hi) as Hnth.
      destruct (Helem i _ Hnth) as [Hwfi Hoi].
      assert (Hk : Spec.followingMonth i startMonth = k).
      { apply ordinal_injective; [exact Hwfi | exact Hwfk |].
        rewrite Hoi. unfold i. lia. }
      rewrite Hk in Hnth. exact (nth_error_In _ _ Hnth).
Qed.

Lemma getMonthsBetween_interval_witness :
  (wellFormed "2025-11" = true /\ wellFormed "2026-02" = true)
  /\ exists months,
       getMonthsBetween 5 "2025-11" "2026-02" = Some months
       /\ months = getNextNMonths "2025-11" 4.
Proof.
  split; [split; reflexivity|].
  destruct (getMonthsBetween_interval "2025-11" "2026-02" eq_refl eq_refl)
    as (months & Hreturns & Hmonths & _).
  - vm_compute. discriminate.
  - vm_compute. discriminate.
  - exists months. split; [|exact Hmonths].
    apply Hreturns. vm_compute. apply le_n.
Defined.

End CalendarExtras.

(** ** Keys built from a date *)

Section KeyOfDate.
Import MonthKey.

Lemma yearPrinted_checked :
  forallYears ("0", "1")%char KeyCheck.yearPrinted = true.
Proof. vm_cast_no_check (eq_refl true). Qed.

Lemma digitChar_digit (n : Z) :
  0 <= n <= 9 -> isDigit (digitChar n) = true /\ digitOf (digitChar n) = n.
Proof.
  intros [Hlo Hhi].
  destruct n as [|p|p]; [split; reflexivity| |lia].
  do 4 (destruct p as [p|p|]; try lia; try (split; reflexivity)).
Qed.

(** A year from 1000 to 9999 is printed as four digits that read it. *)
Lemma toString_year (y : Z) :
  1000 <= y <= 9999 ->
  exists a b c d,
    isDigit a = true /\ isDigit b = true /\ isDigit c = true
    /\ isDigit d = true /\ fourDigits a b c d = y
    /\ JS.toString (Some y) = String a (String b (String c (String d ""))).
Proof.
  intro Hy.
  destruct (digitChar_digit (y / 1000)) as [Ha Hva];
    [Z.div_mod_to_equations; lia|].
  destruct (digitChar_digit (y / 100 mod 10)) as [Hb Hvb];
    [Z.div_mod_to_equations; lia|].
  destruct (digitChar_digit (y / 10 mod 10)) as [Hc Hvc];
    [Z.div_mod_to_equations; lia|].
  destruct (digitChar_digit (y mod 10)) as [Hd Hvd];
    [Z.div_mod_to_equations; lia|].
  exists (digitChar (y / 1000)), (digitChar (y / 100 mod 10)),
         (digitChar (y / 10 mod 10)), (digitChar (y mod 10)).
  assert (Hfour : fourDigits (digitChar (y / 1000))
                    (digitChar (y / 100 mod 10))
                    (digitChar (y / 10 mod 10)) (digitChar (y mod 10)) = y).
  { unfold fourDigits. rewrite Hva, Hvb, Hvc, Hvd.
    Z.div_mod_to_equations. lia. }
  repeat (split; [assumption|]).
  pose proof (forallYears_sound _ _ yearPrinted_checked _ _ _ _
                Ha Hb Hc Hd) as Hprint.
  unfold KeyCheck.yearPrinted in Hprint.
  change (year (make (digitChar (y / 1000)) (digitChar (y / 100 mod 10))
                  (digitChar (y / 10 mod 10)) (digitChar (y mod 10))
                  ("0", "1")%char))
    with (fourDigits (digitChar (y / 1000)) (digitChar (y / 100 mod 10))
            (digitChar (y / 10 mod 10)) (digitChar (y mod 10))) in Hprint.
  rewrite Hfour in Hprint.
  replace (1000 <=? y) with true in Hprint by (symmetry; apply Z.leb_le; lia).
  apply String.eqb_eq in Hprint. exact Hprint.
Qed.

(** The template [`${year}-${month}`] with the month padded to two
    characters gives the well-formed key of the year and month. *)
Lemma key_of_date (y mi : Z) :
  1000 <= y <= 9999 -> 0 <= mi <= 11 ->
  let k := JS.toString (Some y) ++ "-"
           ++ JS.padStart 2 "0" (JS.toString (JS.add (Some mi) (Some 1))) in
  wellFormed k = true /\ year k = y /\ month k = mi + 1.
Proof.
  intros Hy Hmi.
  destruct (toString_year y Hy)
    as (a & b & c & d & Ha & Hb & Hc & Hd & Hfour & ->).
  assert (Hcases : mi = 0 \/ mi = 1 \/ mi = 2 \/ mi = 3 \/ mi = 4 \/ mi = 5
                   \/ mi = 6 \/ mi = 7 \/ mi = 8 \/ mi = 9 \/ mi = 10
                   \/ mi = 11) by lia.
  cbn zeta.
  repeat (destruct Hcases as [-> | Hcases];
    [ match goal with
      | |- context [JS.padStart ?n ?ch ?s] =>
          let v := eval vm_compute in (JS.padStart n ch s) in
          change (JS.padStart n ch s) with v
      end;
      match goal with
      | |- context [(?ys ++ "-" ++ String ?e (String ?f ""))%string] =>
          change (ys ++ "-" ++ String e (String f ""))%string
            with (make a b c d (e, f))
      end;
      split; [apply wellFormed_make_intro; simpl; auto 15|];
      split; [exact Hfour | reflexivity]
    | ]).
  subst mi.
  match goal with
  | |- context [JS.padStart ?n ?ch ?s] =>
      let v := eval vm_compute in (JS.padStart n ch s) in
      change (JS.padStart n ch s) with v
  end.
  match goal with
  | |- context [(?ys ++ "-" ++ String ?e (String ?f ""))%string] =>
      change (ys ++ "-" ++ String e (String f ""))%string
        with (make a b c d (e, f))
  end.
  split; [apply wellFormed_make_intro; simpl; auto 15|].
  split; [exact Hfour | reflexivity].
Qed.

End KeyOfDate.

Section DateExtras.
Import MonthKey.

(** The key that [getCurrentMonth] builds from the clock. *)
Lemma currentMonth_wellFormed (env : DateEnv) :
  1000 <= fullYear env (now env) <= 9999 ->
  0 <= monthIndex env (now env) <= 11 ->
  wellFormed (MonthNavigation.getCurrentMonth env) = true
  /\ year (MonthNavigation.getCurrentMonth env) = fullYear env (now env)
  /\ month (MonthNavigation.getCurrentMonth env)
     = monthIndex env (now env) + 1
  /\ (forall k, wellFormed k = true ->
        (MonthNavigation.isCurrentMonth env k = true
         <-> year k = fullYear env (now env)
             /\ month k = monthIndex env (now env) + 1)).
Proof.
  intros Hy Hm.
  destruct (key_of_date _ _ Hy Hm) as (Hwf & Hyear & Hmonth).
  change (JS.toString (Some (fullYear env (now env))) ++ "-"
          ++ JS.padStart 2 "0"
               (JS.toString (JS.add (Some (monthIndex env (now env)))
                                    (Some 1))))
    with (MonthNavigation.getCurrentMonth env) in Hwf, Hyear, Hmonth.
  repeat (split; [assumption|]).
  intros k Hk. unfold MonthNavigation.isCurrentMonth.
  rewrite String.eqb_eq. split.
  - intros ->. split; assumption.
  - intros [Hky Hkm]. apply ordinal_injective; [exact Hk | exact Hwf |].
    unfold ordinal. rewrite Hky, Hkm, Hyear, Hmonth. reflexivity.
Qed.

(** X4.  On a device whose clock reads a year from 1000 to 9999 (and a
    month index from 0 to 11), [getCurrentMonth] is the well-formed key of
    that year and month, and [isCurrentMonth] accepts a well-formed key
    exactly when it has that year and month. *)
Theorem getCurrentMonth_key (env : DateEnv) :
  1000 <= fullYear env (now env) <= 9999 ->
  0 <= monthIndex env (now env) <= 11 ->
  wellFormed (MonthNavigation.getCurrentMonth env) = true
  /\ year (MonthNavigation.getCurrentMonth env) = fullYear env (now env)
  /\ month (MonthNavigation.getCurrentMonth env)
     = monthIndex env (now env) + 1
  /\ (forall k, wellFormed k = true ->
        (MonthNavigation.isCurrentMonth env k = true
         <-> year k = fullYear env (now env)
             /\ month k = monthIndex env (now env) + 1)).
Proof. apply currentMonth_wellFormed. Qed.

Lemma getCurrentMonth_key_witness :
  (1000 <= fullYear Sample.dev (now Sample.dev) <= 9999
   /\ 0 <= monthIndex Sample.dev (now Sample.dev) <= 11)
  /\ wellFormed (MonthNavigation.getCurrentMonth Sample.dev) = true.
Proof.
  assert (Hy : 1000 <= fullYear Sample.dev (now Sample.dev) <= 9999)
    by (vm_compute; split; discriminate).
  assert (Hm : 0 <= monthIndex Sample.dev (now Sample.dev) <= 11)
    by (vm_compute; split; discriminate).
  split; [split; assumption|].
  exact (proj1 (getCurrentMonth_key Sample.dev Hy Hm)).
Defined.

(** X5.  When every transaction has a valid timestamp whose date has a
    year from 1000 to 9999 (and a month index from 0 to 11),
    [getFirstTrackedMonth] of a non-empty list is the well-formed key of the
    year and month of a transaction of least time. *)
Theorem getFirstTrackedMonth_key
    (env : DateEnv) (transactions : list Transaction.t) :
  transactions <> [] ->
  (forall t, In t transactions ->
     exists z, parse env (Transaction.timestamp t) = Some z
               /\ 1000 <= fullYear env z <= 9999
               /\ 0 <= monthIndex env z <= 11) ->
  exists first time,
    In first transactions
    /\ parse env (Transaction.timestamp first) = Some time
    /\ (forall t z, In t transactions ->
          parse env (Transaction.timestamp t) = Some z -> time <= z)
    /\ wellFormed (MonthNavigation.getFirstTrackedMonth env transactions)
       = true
    /\ year (MonthNavigation.getFirstTrackedMonth env transactions)
       = fullYear env time
    /\ month (MonthNavigation.getFirstTrackedMonth env transactions)
       = monthIndex env time + 1.
Proof.
  intros Hne Hvalid.
  destruct (getFirstTrackedMonth_earliest env transactions)
    as (first & time & Hin & Htime & Hmin & Hkey); [|exact Hne|].
  { intros t Ht. destruct (Hvalid t Ht) as (z & Hz & _). exists z. exact Hz. }
  exists first, time. repeat (split; [assumption|]).
  destruct (Hvalid first Hin) as (z & Hz & Hy & Hm).
  rewrite Htime in Hz. injection Hz as <-.
  rewrite Hkey. exact (key_of_date _ _ Hy Hm).
Qed.

Lemma getFirstTrackedMonth_key_witness :
  Sample.transactions <> []
  /\ exists first time,
       In first Sample.transactions
       /\ parse Sample.dev (Transaction.timestamp first) = Some time
       /\ MonthNavigation.getFirstTrackedMonth Sample.dev Sample.transactions
          = "2025-09"
       /\ year (MonthNavigation.getFirstTrackedMonth Sample.dev
                  Sample.transactions)
          = fullYear Sample.dev time.
Proof.
  split; [discriminate|].
  destruct (getFirstTrackedMonth_key Sample.dev Sample.transactions)
    as (first & time & Hin & Htime & _ & _ & Hyear & _).
  - discriminate.
  - intros t [<- | [<- | []]]; eexists;
      (split; [reflexivity|]); vm_compute; repeat split; discriminate.
  - exists first, time. repeat split; assumption.
Defined.

(** X6.  With a well-formed first tracked month of year 1000 or later, a
    step back from a well-formed month lands on the well-formed key of the
    calendar month before, which is not before the first tracked month and
    from which [getNextMonth] leads back; and no step back is made from the
    first tracked month itself. *)
Theorem navigator_previous_stays_tracked
    (canGoPrevious : bool) (first current p : string) :
  wellFormed first = true -> 1000 <= year first ->
  wellFormed current = true ->
  MonthNavigator.handlePreviousMonth canGoPrevious (Some first) current
  = Some p ->
  wellFormed p = true
  /\ ordinal p = ordinal current - 1
  /\ before p first = false
  /\ MonthNavigation.getNextMonth p = current
  /\ MonthNavigator.handlePreviousMonth canGoPrevious (Some first) first
     = None.
Proof.
  intros Hwff Hyf Hwfc Hstep.
  unfold MonthNavigator.handlePreviousMonth,
         MonthNavigator.canGoToPrevious in *.
  assert (Hself : String.ltb first first = false).
  { unfold String.ltb.
    rewrite (compare_ordinal first first Hwff Hwff), Z.compare_refl.
    reflexivity. }
  destruct canGoPrevious; [|discriminate Hstep].
  assert (Htruthy : MonthNavigator.truthy (Some first) = true).
  { destruct first; [discriminate Hwff | reflexivity]. }
  rewrite Htruthy in *. cbn [negb orb andb] in *.
  rewrite Hself.
  destruct (String.ltb first current) eqn:Hlt; [|discriminate Hstep].
  injection Hstep as <-.
  apply (before_ordinal first current Hwff Hwfc) in Hlt.
  pose proof (wellFormed_range _ Hwff) as [_ Hmf].
  pose proof (wellFormed_range _ Hwfc) as [_ Hmc].
  assert (Hrange : month current <> 1 \/ 1001 <= year current)
    by (unfold ordinal in *; lia).
  destruct (previous_key current Hwfc Hrange)
    as (Hwfp & Hjan & Hother & Hback & _).
  change (MonthNavigation.getPreviousMonth current)
    with (BudgetCalculator.getPreviousMonth current).
  assert (Hord : ordinal (BudgetCalculator.getPreviousMonth current)
                 = ordinal current - 1).
  { unfold ordinal.
    destruct (Z.eq_dec (month current) 1) as [Hm | Hm].
    - destruct (Hjan Hm) as [-> ->]. lia.
    - destruct (Hother Hm) as [-> ->]. lia. }
  split; [exact Hwfp|]. split; [exact Hord|]. split; [|split].
  - destruct (before (BudgetCalculator.getPreviousMonth current) first)
      eqn:Hb; [|reflexivity].
    apply (before_ordinal _ _ Hwfp Hwff) in Hb. lia.
  - exact Hback.
  - reflexivity.
Qed.

Lemma navigator_previous_stays_tracked_witness :
  MonthNavigator.handlePreviousMonth true (Some "2025-09") "2025-11"
  = Some "2025-10"
  /\ before "2025-10" "2025-09" = false.
Proof.
  split; [reflexivity|].
  refine (proj1 (proj2 (proj2
            (navigator_previous_stays_tracked true "2025-09" "2025-11"
               "2025-10" eq_refl _ eq_refl eq_refl)))).
  vm_compute. discriminate.
Defined.

(** X7.  On a device whose clock reads a year from 1000 to 9999, a step
    forward from a well-formed month of year 1000 or later lands on the
    well-formed key of the calendar month after, which is not after the
    current month of the device and from which [getPreviousMonth] leads
    back; and no step forward is made from the current month. *)
Theorem navigator_next_stays_current
    (env : DateEnv) (canGoNext : bool) (current n : string) :
  1000 <= fullYear env (now env) <= 9999 ->
  0 <= monthIndex env (now env) <= 11 ->
  wellFormed current = true -> 1000 <= year current ->
  MonthNavigator.handleNextMonth env canGoNext current = Some n ->
  wellFormed n = true
  /\ ordinal n = ordinal current + 1
  /\ before (MonthNavigation.getCurrentMonth env) n = false
  /\ MonthNavigation.getPreviousMonth n = current
  /\ MonthNavigator.handleNextMonth env canGoNext
       (MonthNavigation.getCurrentMonth env) = None.
Proof.
  intros Hy Hm Hwfc Hyc Hstep.
  destruct (currentMonth_wellFormed env Hy Hm) as (Hwfk & Hyk & Hmk & _).
  unfold MonthNavigator.handleNextMonth, MonthNavigator.canGoToNext in *.
  cbn zeta in *.
  assert (Hself : String.ltb (MonthNavigation.getCurrentMonth env)
                    (MonthNavigation.getCurrentMonth env) = false).
  { unfold String.ltb.
    rewrite (compare_ordinal _ _ Hwfk Hwfk), Z.compare_refl. reflexivity. }
  rewrite Hself, andb_false_r.
  destruct canGoNext; [|discriminate Hstep]. cbn [andb] in Hstep.
  destruct (String.ltb current (MonthNavigation.getCurrentMonth env))
    eqn:Hlt; [|discriminate Hstep].
  injection Hstep as <-.
  apply (before_ordinal _ _ Hwfc Hwfk) in Hlt.
  pose proof (wellFormed_range _ Hwfc) as [_ Hmc].
  pose proof (wellFormed_range _ Hwfk) as [Hykr Hmkr].
  assert (Hrange : month current <> 12 \/ 1000 <= year current <= 9998)
    by (unfold ordinal in *; lia).
  destruct (next_key current Hwfc Hrange)
    as (Hwfn & Hdec & Hother & Hback & _).
  change (MonthNavigation.getNextMonth current)
    with (BudgetCalculator.getNextMonth current).
  assert (Hord : ordinal (BudgetCalculator.getNextMonth current)
                 = ordinal current + 1).
  { unfold ordinal.
    destruct (Z.eq_dec (month current) 12) as [Hmd | Hmd].
    - destruct (Hdec Hmd) as [-> ->]. lia.
    - destruct (Hother Hmd) as [-> ->]. lia. }
  split; [exact Hwfn|]. split; [exact Hord|]. split; [|split].
  - destruct (before (MonthNavigation.getCurrentMonth env)
                (BudgetCalculator.getNextMonth current)) eqn:Hb;
      [|reflexivity].
    apply (before_ordinal _ _ Hwfk Hwfn) in Hb. lia.
  - exact Hback.
  - reflexivity.
Qed.

Lemma navigator_next_stays_current_witness :
  MonthNavigation.getCurrentMonth Sample.dev = "2025-11"
  /\ MonthNavigator.handleNextMonth Sample.dev true "2025-09"
     = Some "2025-10"
  /\ before (MonthNavigation.getCurrentMonth Sample.dev) "2025-10" = false.
Proof.
  split; [reflexivity|]. split; [reflexivity|].
  refine (proj1 (proj2 (proj2
            (navigator_next_stays_current Sample.dev true "2025-09"
               "2025-10" _ _ eq_refl _ eq_refl)))).
  - vm_compute. split; discriminate.
  - vm_compute. split; discriminate.
  - vm_compute. discriminate.
Defined.

End DateExtras.

(** ** The engine on stored collections *)

Section EngineFacts.
Import BudgetCalculator.
Variable env : DateEnv.






Lemma findBudget_map_other (budgets : list MonthlyBudget.t)
    (m k : string) (flag : bool) :
  k <> m ->
  findBudget
    (map (fun budget =>
            if String.eqb (MonthlyBudget.month_year budget) m
            then withRollover budget flag else budget) budgets) k
  = findBudget budgets k.
Proof.
  intro Hne. unfold findBudget.
  induction budgets as [|b rest IH]; [reflexivity|].
  cbn [map find].
  destruct (String.eqb (MonthlyBudget.month_year b) m) eqn:Hm.
  - apply String.eqb_eq in Hm. cbn [withRollover MonthlyBudget.month_year].
    assert (Hk : String.eqb (MonthlyBudget.month_year b) k = false)
      by (apply String.eqb_neq; congruence).
    rewrite Hk. exact IH.
  - destruct (String.eqb (MonthlyBudget.month_year b) k); [reflexivity|].
    exact IH.
Qed.

Lemma findBudget_map_same (budgets : list MonthlyBudget.t)
    (m : string) (flag : bool) :
  findBudget
    (map (fun budget =>
            if String.eqb (MonthlyBudget.month_year budget) m
            then withRollover budget flag else budget) budgets) m
  = option_map (fun b => withRollover b flag) (findBudget budgets m).
Proof.
  unfold findBudget.
  induction budgets as [|b rest IH]; [reflexivity|].
  cbn [map find].
  destruct (String.eqb (MonthlyBudget.month_year b) m) eqn:Hm.
  - cbn [withRollover MonthlyBudget.month_year]. rewrite Hm. reflexivity.
  - rewrite Hm. exact IH.
Qed.

(** On well-formed collections the recursion started at or before [m]
    never reads the record of [m], so the flag of [m] does not change it. *)
Lemma calculateRolloverAmount_toggle
    (transactions : list Transaction.t) (budgets : list MonthlyBudget.t)
    (m : string) (flag : bool) :
  Spec.wellFormedBudgets budgets -> MonthKey.wellFormed m = true ->
  forall fuel k,
    MonthKey.wellFormed k = true -> MonthKey.ordinal k <= MonthKey.ordinal m ->
    calculateRolloverAmount env fuel transactions
      (map (fun budget =>
              if String.eqb (MonthlyBudget.month_year budget) m
              then withRollover budget flag else budget) budgets) k
    = calculateRolloverAmount env fuel transactions budgets k.
Proof.
  intros Hok Hwfm. induction fuel as [|fuel IH]; intros k Hwfk Hle.
  - reflexivity.
  - rewrite !calculateRolloverAmount_step.
    assert (Hne : getPreviousMonth k <> m).
    { intro Heq.
      assert (Hwfp : MonthKey.wellFormed (getPreviousMonth k) = true)
        by (rewrite Heq; exact Hwfm).
      pose proof (previous_ordinal k Hwfk Hwfp) as Hord.
      rewrite Heq in Hord. lia. }
    rewrite (findBudget_map_other budgets m _ flag Hne).
    destruct (findBudget budgets (getPreviousMonth k)) as [prev|] eqn:Hfind;
      [|reflexivity].
    destruct (MonthlyBudget.rollover_enabled prev); [|reflexivity].
    pose proof (found_wellFormed budgets Hok _ _ Hfind) as Hwfp.
    pose proof (previous_ordinal k Hwfk Hwfp) as Hord.
    rewrite IH by (try exact Hwfp; lia). reflexivity.
Qed.

End EngineFacts.

Section EngineExtras.
Import BudgetCalculator.

(** The engine reads the transactions through the totals of the months
    only. *)
Lemma engine_reads_totals (env : DateEnv) (l l' : list Transaction.t)
    (budgets : list MonthlyBudget.t) :
  (forall k, calculateTotalForMonth env l k = calculateTotalForMonth env l' k) ->
  (forall fuel m,
     calculateRolloverAmount env fuel l budgets m
     = calculateRolloverAmount env fuel l' budgets m)
  /\ (forall fuel m defaultBudgetAmount,
        calculateBudgetSummary env fuel m l budgets defaultBudgetAmount
        = calculateBudgetSummary env fuel m l' budgets defaultBudgetAmount).
Proof.
  intro Htotal.
  assert (Hcarry : forall fuel m,
     calculateRolloverAmount env fuel l budgets m
     = calculateRolloverAmount env fuel l' budgets m).
  { induction fuel as [|fuel IH]; intro m; [reflexivity|].
    rewrite !calculateRolloverAmount_step, IH, Htotal. reflexivity. }
  split; [exact Hcarry|].
  intros fuel m defaultBudgetAmount. unfold calculateBudgetSummary.
  rewrite Hcarry, Htotal. reflexivity.
Qed.







(** X11.  On a collection with well-formed, pairwise distinct keys and a
    record for the month, [recalculateWithRolloverChange] applies the
    requested flag: with [false] the summary has rollover disabled and the
    default amount; with [true] it has rollover enabled and the default
    amount plus the carry-in of the month, which is the carry-in computed on
    the collection as it was. *)
Theorem toggle_with_record_applies_flag
    (env : DateEnv) (fuel : nat) (monthYear : string)
    (transactions : list Transaction.t) (budgets : list MonthlyBudget.t)
    (defaultBudgetAmount : Z) (budget : MonthlyBudget.t) :
  Spec.wellFormedBudgets budgets ->
  findBudget budgets monthYear = Some budget ->
  (exists s,
     recalculateWithRolloverChange env fuel monthYear transactions budgets
       false defaultBudgetAmount = Some s
     /\ BudgetSummary.rollover_enabled s = false
     /\ BudgetSummary.budget_amount s = defaultBudgetAmount)
  /\ (forall carry,
        calculateRolloverAmount env fuel transactions budgets monthYear
        = Some carry ->
        exists s,
          recalculateWithRolloverChange env fuel monthYear transactions
            budgets true defaultBudgetAmount = Some s
          /\ BudgetSummary.rollover_enabled s = true
          /\ BudgetSummary.budget_amount s = defaultBudgetAmount + carry).
Proof.
  intros Hok Hfind.
  pose proof (found_wellFormed budgets Hok _ _ Hfind) as Hwf.
  split.
  - unfold recalculateWithRolloverChange, calculateBudgetSummary.
    rewrite findBudget_map_same, Hfind. cbn.
    eexists. split; [reflexivity|]. split; reflexivity.
  - intros carry Hcarry.
    unfold recalculateWithRolloverChange, calculateBudgetSummary.
    rewrite findBudget_map_same, Hfind.
    rewrite (calculateRolloverAmount_toggle env transactions budgets
               monthYear true Hok Hwf fuel monthYear Hwf (Z.le_refl _)).
    rewrite Hcarry. cbn.
    eexists. split; [reflexivity|]. split; reflexivity.
Qed.

Lemma toggle_with_record_applies_flag_witness :
  findBudget Sample.budgets "2025-11"
  = Some (Sample.budget "2025-11" 100000 true)
  /\ exists s,
       recalculateWithRolloverChange Sample.dev 3 "2025-11"
         Sample.transactions Sample.budgets false 100000 = Some s
       /\ BudgetSummary.rollover_enabled s = false
       /\ BudgetSummary.budget_amount s = 100000.
Proof.
  split; [reflexivity|].
  exact (proj1 (toggle_with_record_applies_flag Sample.dev 3 "2025-11"
                  Sample.transactions Sample.budgets 100000
                  (Sample.budget "2025-11" 100000 true)
                  sample_budgets_wellFormed eq_refl)).
Defined.

(** X12.  When the summary of a month is computed with the stored amount
    of the month as default amount, as the offline path does, its remaining
    budget is the carry-in of the next month. *)
Theorem remaining_is_next_carry_in
    (env : DateEnv) (fuel : nat) (monthYear nextMonth : string)
    (transactions : list Transaction.t) (budgets : list MonthlyBudget.t)
    (budget : MonthlyBudget.t) (s : BudgetSummary.t) :
  getPreviousMonth nextMonth = monthYear ->
  findBudget budgets monthYear = Some budget ->
  calculateBudgetSummary env fuel monthYear transactions budgets
    (MonthlyBudget.budget_amount budget) = Some s ->
  calculateRolloverAmount env (S fuel) transactions budgets nextMonth
  = Some (BudgetSummary.remaining_budget s).
Proof.
  intros Hprev Hfind Hsum.
  rewrite calculateRolloverAmount_step, Hprev, Hfind.
  unfold calculateBudgetSummary in Hsum. rewrite Hfind in Hsum.
  destruct (MonthlyBudget.rollover_enabled budget).
  - destruct (calculateRolloverAmount env fuel transactions budgets
                monthYear) as [carry|]; [|discriminate Hsum].
    cbn in Hsum. injection Hsum as <-. reflexivity.
  - cbn in Hsum. injection Hsum as <-. cbn. f_equal. lia.
Qed.

Lemma remaining_is_next_carry_in_witness :
  (getPreviousMonth "2025-11" = "2025-10"
   /\ option_map BudgetSummary.remaining_budget
        (calculateBudgetSummary Sample.dev 2 "2025-10" Sample.transactions
           Sample.budgets 100000) = Some (-10000))
  /\ calculateRolloverAmount Sample.dev 3 Sample.transactions Sample.budgets
       "2025-11" = Some (-10000).
Proof.
  split; [split; reflexivity|].
  exact (remaining_is_next_carry_in Sample.dev 2 "2025-10" "2025-11"
           Sample.transactions Sample.budgets
           (Sample.budget "2025-10" 100000 true) _ eq_refl eq_refl eq_refl).
Defined.

(** X13.  A transaction whose timestamp is not a valid date, or whose type
    is neither withdraw nor deposit, counts nowhere: adding it to the list
    changes no total, no carry-in and no summary. *)
Theorem ignored_transaction_changes_nothing
    (env : DateEnv) (t : Transaction.t) (transactions : list Transaction.t)
    (budgets : list MonthlyBudget.t) :
  parse env (Transaction.timestamp t) = None
  \/ (Transaction.type t <> "withdraw" /\ Transaction.type t <> "deposit") ->
  (forall m,
     calculateTotalForMonth env (t :: transactions) m
     = calculateTotalForMonth env transactions m)
  /\ (forall fuel m,
        calculateRolloverAmount env fuel (t :: transactions) budgets m
        = calculateRolloverAmount env fuel transactions budgets m)
  /\ (forall fuel m defaultBudgetAmount,
        calculateBudgetSummary env fuel m (t :: transactions) budgets
          defaultBudgetAmount
        = calculateBudgetSummary env fuel m transactions budgets
            defaultBudgetAmount).
Proof.
  intro Hignored.
  assert (Htotal : forall m,
     calculateTotalForMonth env (t :: transactions) m
     = calculateTotalForMonth env transactions m).
  { intro m. unfold calculateTotalForMonth, getTransactionsForMonth.
    cbn [filter].
    destruct Hignored as [Hinvalid | [Hw Hd]].
    - unfold Date.ofString. rewrite Hinvalid. reflexivity.
    - match goal with
      | |- context [if ?c then _ else _] => destruct c; [|reflexivity]
      end.
      cbn [fold_left]. unfold accumulate at 2.
      apply String.eqb_neq in Hw. apply String.eqb_neq in Hd.
      rewrite Hw, Hd. reflexivity. }
  split; [exact Htotal|].
  exact (engine_reads_totals env (t :: transactions) transactions budgets
           Htotal).
Qed.

Lemma ignored_transaction_changes_nothing_witness :
  parse Sample.dev "yesterday" = None
  /\ calculateBudgetSummary Sample.dev 3 "2025-11"
       (Sample.tx "withdraw" 999 "yesterday" :: Sample.transactions)
       Sample.budgets 100000
     = calculateBudgetSummary Sample.dev 3 "2025-11" Sample.transactions
         Sample.budgets 100000.
Proof.
  split; [reflexivity|].
  exact (proj2 (proj2 (ignored_transaction_changes_nothing Sample.dev
                         (Sample.tx "withdraw" 999 "yesterday")
                         Sample.transactions Sample.budgets
                         (or_introl eq_refl)))
           3%nat "2025-11" 100000).
Defined.



End EngineExtras.

(** ** The offline path *)

Section Offline.
Import BudgetCalculator.
Import HomeScreen.

(** The search of the offline path finds the record that [find] finds. *)
Lemma scanBudgets_find (rest : list MonthlyBudget.t) (currentMonth : string)
    (index : nat) :
  match findBudget rest currentMonth with
  | None => scanBudgets rest currentMonth index = None
  | Some b =>
      exists i, scanBudgets rest currentMonth index = Some (index + i)%nat
                /\ nth_error rest i = Some b
  end.
Proof.
  unfold findBudget. revert index.
  induction rest as [|b rest IH]; intro index; [reflexivity|].
  cbn [find scanBudgets].
  destruct (String.eqb (MonthlyBudget.month_year b) currentMonth).
  - exists 0%nat. cbn [negb]. split; [f_equal; lia | reflexivity].
  - cbn [negb]. specialize (IH (S index)).
    destruct (find _ rest) as [found|].
    + destruct IH as (i & Hscan & Hnth). exists (S i).
      split; [rewrite Hscan; f_equal; lia | exact Hnth].
    + exact IH.
Qed.

(** X15.  Offline, when the stored budgets have no record for the current
    month, the load reports "Failed to load data" and leaves the summary
    and the first tracked month as they were, yet the transactions and
    budgets shown are already the stored ones. *)
Theorem offline_without_record_fails
    (env : DateEnv) (fuel : nat) (currentMonth : string)
    (localTransactions : list Transaction.t)
    (localBudgets : list MonthlyBudget.t) (state : State) :
  (forall b, In b localBudgets ->
             MonthlyBudget.month_year b <> currentMonth) ->
  exists state',
    loadOffline env fuel currentMonth localTransactions localBudgets state
    = Some state'
    /\ snackbarMessage state' = "Failed to load data"
    /\ snackbarVisible state' = true
    /\ budgetSummary state' = budgetSummary state
    /\ firstTrackedMonth state' = firstTrackedMonth state
    /\ transactions state' = localTransactions
    /\ monthlyBudgets state' = localBudgets
    /\ isLoading state' = false /\ isRefreshing state' = false.
Proof.
  intro Hnone. unfold loadOffline.
  pose proof (scanBudgets_find localBudgets currentMonth 0) as Hscan.
  rewrite (findBudget_absent localBudgets currentMonth Hnone) in Hscan.
  rewrite Hscan. eexists. split; [reflexivity|]. cbn. repeat split.
Qed.

Lemma offline_without_record_fails_witness :
  exists state',
    loadOffline Sample.dev 3 "2025-12" Sample.transactions Sample.budgets
      (mkState [] [] None None "" false true false)
    = Some state'
    /\ snackbarMessage state' = "Failed to load data".
Proof.
  destruct (offline_without_record_fails Sample.dev 3 "2025-12"
              Sample.transactions Sample.budgets
              (mkState [] [] None None "" false true false))
    as (state' & Hload & Hmessage & _).
  - intros b [<- | [<- | [<- | []]]]; discriminate.
  - exists state'. split; assumption.
Defined.



End Offline.

(** ** The amount field *)

Section Amount.
Import AmountInput.

Lemma allChars_append (P : ascii -> bool) (a b : string) :
  allChars P (a ++ b) = allChars P a && allChars P b.
Proof.
  induction a as [|c a IH]; [reflexivity|].
  cbn [append allChars]. rewrite IH, andb_assoc. reflexivity.
Qed.

Lemma allChars_clean (text : string) : allChars keeps (clean text) = true.
Proof.
  induction text as [|c text IH]; [reflexivity|].
  cbn [clean]. destruct (keeps c) eqn:Hc; [|exact IH].
  cbn [allChars]. rewrite Hc, IH. reflexivity.
Qed.

Lemma clean_fixed (s : string) : allChars keeps s = true -> clean s = s.
Proof.
  induction s as [|c s IH]; [reflexivity|].
  cbn [allChars clean]. intro H. apply andb_prop in H. destruct H as [Hc Hs].
  rewrite Hc, (IH Hs). reflexivity.
Qed.

Lemma split_parts (P : ascii -> bool) (sep : ascii) (s : string) :
  allChars P s = true ->
  Forall (fun p => allChars P p = true) (JS.split sep s).
Proof.
  induction s as [|c s IH]; intro H.
  - repeat constructor.
  - cbn [allChars] in H. apply andb_prop in H. destruct H as [Hc Hs].
    specialize (IH Hs). cbn [JS.split].
    destruct (Ascii.eqb c sep).
    + constructor; [reflexivity | exact IH].
    + destruct (JS.split sep s) as [|p ps].
      * repeat constructor. cbn [allChars]. rewrite Hc. reflexivity.
      * inversion IH as [|? ? Hp Hps]; subst. constructor; [|exact Hps].
        cbn [allChars]. rewrite Hc, Hp. reflexivity.
Qed.

Lemma split_no_separator (sep : ascii) (s : string) :
  Forall (fun p => allChars (fun c => negb (Ascii.eqb c sep)) p = true)
    (JS.split sep s).
Proof.
  induction s as [|c s IH].
  - repeat constructor.
  - cbn [JS.split]. destruct (Ascii.eqb c sep) eqn:Hc.
    + constructor; [reflexivity | exact IH].
    + destruct (JS.split sep s) as [|p ps].
      * repeat constructor. cbn [allChars]. rewrite Hc. reflexivity.
      * inversion IH as [|? ? Hp Hps]; subst. constructor; [|exact Hps].
        cbn [allChars]. rewrite Hc, Hp. reflexivity.
Qed.

Lemma split_single (sep : ascii) (a : string) :
  allChars (fun c => negb (Ascii.eqb c sep)) a = true ->
  JS.split sep a = [a].
Proof.
  induction a as [|c a IH]; [reflexivity|].
  cbn [allChars JS.split]. intro H. apply andb_prop in H.
  destruct H as [Hc Ha]. apply negb_true_iff in Hc.
  rewrite Hc, (IH Ha). reflexivity.
Qed.

Lemma split_append (sep : ascii) (a b : string) :
  allChars (fun c => negb (Ascii.eqb c sep)) a = true ->
  JS.split sep (a ++ String sep b) = a :: JS.split sep b.
Proof.
  induction a as [|c a IH].
  - intros _. cbn [append JS.split]. rewrite Ascii.eqb_refl. reflexivity.
  - cbn [allChars append JS.split]. intro H. apply andb_prop in H.
    destruct H as [Hc Ha]. apply negb_true_iff in Hc.
    rewrite Hc, (IH Ha). reflexivity.
Qed.

Lemma allChars_concat (P : ascii -> bool) (l : list string) :
  Forall (fun p => allChars P p = true) l ->
  allChars P (String.concat "" l) = true.
Proof.
  induction l as [|x l IH]; intro H; [reflexivity|].
  inversion H as [|? ? Hx Hl]; subst.
  destruct l as [|y l]; [exact Hx|].
  cbn [String.concat]. rewrite allChars_append, Hx. cbn [append andb].
  exact (IH Hl).
Qed.

Lemma allChars_substring (P : ascii -> bool) (n m : nat) (s : string) :
  allChars P s = true -> allChars P (substring n m s) = true.
Proof.
  revert n m. induction s as [|c s IH]; intros n m H.
  - destruct n, m; reflexivity.
  - cbn [allChars] in H. apply andb_prop in H. destruct H as [Hc Hs].
    destruct n as [|n]; cbn [substring].
    + destruct m as [|m]; [reflexivity|].
      cbn [allChars]. rewrite Hc. exact (IH 0%nat m Hs).
    + exact (IH n m Hs).
Qed.

Lemma length_substring (n m : nat) (s : string) :
  (String.length (substring n m s) <= m)%nat.
Proof.
  revert n m. induction s as [|c s IH]; intros n m.
  - destruct n, m; cbn; lia.
  - destruct n as [|n]; cbn [substring].
    + destruct m as [|m]; [cbn; lia|].
      cbn [String.length]. specialize (IH 0%nat m). lia.
    + apply IH.
Qed.

Lemma split_not_nil (sep : ascii) (s : string) : JS.split sep s <> [].
Proof.
  destruct s as [|c s]; [discriminate|]. cbn [JS.split].
  destruct (Ascii.eqb c sep); [discriminate|].
  destruct (JS.split sep s); discriminate.
Qed.

(** Joining the parts with the separator gives the string back. *)
Lemma join_split (sep : ascii) (s : string) :
  String.concat (String sep "") (JS.split sep s) = s.
Proof.
  induction s as [|c s IH]; [reflexivity|].
  pose proof (split_not_nil sep s) as Hne. cbn [JS.split].
  destruct (Ascii.eqb c sep) eqn:Hc.
  - apply Ascii.eqb_eq in Hc. subst c.
    destruct (JS.split sep s) as [|p ps]; [contradiction|].
    cbn [String.concat append] in *. rewrite IH. reflexivity.
  - destruct (JS.split sep s) as [|p ps]; [contradiction|].
    destruct ps as [|q qs]; cbn [String.concat append] in *;
      rewrite IH; reflexivity.
Qed.

(** [formatAmount] on a text made of a whole part and at most one
    fraction, both without other characters than digits. *)
Lemma formatAmount_whole (whole : string) :
  allChars keeps whole = true -> allChars notDot whole = true ->
  formatAmount whole = whole.
Proof.
  intros Hk Hd. unfold formatAmount. rewrite (clean_fixed whole Hk).
  rewrite (split_single "." whole Hd). reflexivity.
Qed.

Lemma formatAmount_fraction (whole frac : string) :
  allChars keeps whole = true -> allChars notDot whole = true ->
  allChars keeps frac = true -> allChars notDot frac = true ->
  formatAmount (whole ++ String "." frac)
  = whole ++ String "."
      (if (2 <? String.length frac)%nat then substring 0 2 frac else frac).
Proof.
  intros Hkw Hdw Hkf Hdf. unfold formatAmount.
  rewrite clean_fixed
    by (rewrite allChars_append; cbn [allChars]; rewrite Hkw, Hkf;
        reflexivity).
  rewrite (split_append "." whole frac Hdw), (split_single "." frac Hdf).
  cbn [List.length JS.element nth Z.of_nat].
  change (2 <? Z.of_nat 2) with false.
  change (Z.of_nat 2 =? 2) with true. cbn [andb].
  destruct (Nat.ltb_spec 2 (String.length frac)) as [Hlong | Hshort].
  - replace (2 <? Z.of_nat (String.length frac)) with true
      by (symmetry; apply Z.ltb_lt; lia).
    reflexivity.
  - replace (2 <? Z.of_nat (String.length frac)) with false
      by (symmetry; apply Z.ltb_ge; lia).
    reflexivity.
Qed.

(** What [formatAmount] returns: a whole part, or a whole part, a dot and
    a fraction. *)
Lemma formatAmount_shape (text : string) :
  exists whole,
    allChars keeps whole = true /\ allChars notDot whole = true
    /\ (formatAmount text = whole
        \/ exists frac,
             allChars keeps frac = true /\ allChars notDot frac = true
             /\ formatAmount text = whole ++ String "." frac).
Proof.
  pose proof (split_parts keeps "." (clean text) (allChars_clean text))
    as Hkeep.
  pose proof (split_no_separator "." (clean text)) as Hdot.
  pose proof (join_split "." (clean text)) as Hjoin.
  pose proof (split_not_nil "." (clean text)) as Hne.
  unfold formatAmount. cbn zeta.
  destruct (JS.split "." (clean text)) as [|p0 [|p1 [|p2 rest]]];
    [contradiction| | |].
  - inversion Hkeep as [|? ? Hk0 _]; inversion Hdot as [|? ? Hd0 _]; subst.
    exists p0. split; [exact Hk0|]. split; [exact Hd0|]. left.
    cbn in Hjoin. cbn. symmetry. exact Hjoin.
  - inversion Hkeep as [|? ? Hk0 Hk]; inversion Hk as [|? ? Hk1 _];
      inversion Hdot as [|? ? Hd0 Hd]; inversion Hd as [|? ? Hd1 _]; subst.
    exists p0. split; [exact Hk0|]. split; [exact Hd0|]. right.
    cbn [List.length JS.element nth Z.of_nat].
    change (2 <? Z.of_nat 2) with false.
    change (Z.of_nat 2 =? 2) with true. cbn [andb].
    destruct (2 <? Z.of_nat (String.length p1)).
    + exists (substring 0 2 p1).
      split; [apply allChars_substring; exact Hk1|].
      split; [apply allChars_substring; exact Hd1|]. reflexivity.
    + exists p1. split; [exact Hk1|]. split; [exact Hd1|].
      cbn in Hjoin. symmetry. exact Hjoin.
  - inversion Hkeep as [|? ? Hk0 Hk]; inversion Hdot as [|? ? Hd0 Hd]; subst.
    exists p0. split; [exact Hk0|]. split; [exact Hd0|]. right.
    exists (String.concat "" (p1 :: p2 :: rest)).
    split; [apply allChars_concat; exact Hk|].
    split; [apply allChars_concat; exact Hd|].
    replace (2 <? Z.of_nat (List.length (p0 :: p1 :: p2 :: rest)))
      with true by (symmetry; apply Z.ltb_lt; cbn [List.length]; lia).
    reflexivity.
Qed.

(** X17.  Whatever is typed, [formatAmount] returns digits with at most
    one dot: every character is a digit or a dot, and splitting the result
    at the dots gives at most two parts. *)
Theorem formatAmount_digits_and_one_dot (text : string) :
  allChars keeps (formatAmount text) = true
  /\ (List.length (JS.split "." (formatAmount text)) <= 2)%nat.
Proof.
  destruct (formatAmount_shape text)
    as (whole & Hkw & Hdw & [-> | (frac & Hkf & Hdf & ->)]).
  - split; [exact Hkw|]. rewrite (split_single "." whole Hdw). cbn. lia.
  - split.
    + rewrite allChars_append. cbn [allChars]. rewrite Hkw, Hkf. reflexivity.
    + rewrite (split_append "." whole frac Hdw), (split_single "." frac Hdf).
      cbn. lia.
Qed.

(** X18.  Applying [formatAmount] twice always gives an amount that
    [formatAmount] leaves as it is and that has at most two digits after the
    dot; applying it once does so when the text holds at most one dot, but
    not in general: 1.2.345 becomes 1.2345. *)
Theorem formatAmount_twice_is_stable (text : string) :
  formatAmount (formatAmount (formatAmount text))
  = formatAmount (formatAmount text)
  /\ (forall whole frac,
        JS.split "." (formatAmount (formatAmount text)) = [whole; frac] ->
        (String.length frac <= 2)%nat)
  /\ ((List.length (JS.split "." (clean text)) <= 2)%nat ->
      formatAmount (formatAmount text) = formatAmount text)
  /\ formatAmount "1.2.345" = "1.2345"
  /\ formatAmount (formatAmount "1.2.345") = "1.23".
Proof.
  assert (Hshort : forall frac,
            (String.length
               (if (2 <? String.length frac)%nat
                then substring 0 2 frac else frac) <= 2)%nat).
  { intro frac. destruct (Nat.ltb_spec 2 (String.length frac));
      [apply length_substring | assumption]. }
  assert (Hfixed : forall whole frac,
            allChars keeps whole = true -> allChars notDot whole = true ->
            allChars keeps frac = true -> allChars notDot frac = true ->
            (String.length frac <= 2)%nat ->
            formatAmount (whole ++ String "." frac)
            = whole ++ String "." frac).
  { intros whole frac Hkw Hdw Hkf Hdf Hlen.
    rewrite (formatAmount_fraction whole frac Hkw Hdw Hkf Hdf).
    destruct (Nat.ltb_spec 2 (String.length frac)); [lia | reflexivity]. }
  assert (Htrunc : forall frac,
            allChars keeps frac = true -> allChars notDot frac = true ->
            allChars keeps (if (2 <? String.length frac)%nat
                            then substring 0 2 frac else frac) = true
            /\ allChars notDot (if (2 <? String.length frac)%nat
                                then substring 0 2 frac else frac) = true).
  { intros frac Hkf Hdf. destruct (2 <? String.length frac)%nat;
      split; try apply allChars_substring; assumption. }
  split; [|split; [|split; [|split; reflexivity]]].
  - destruct (formatAmount_shape text)
      as (whole & Hkw & Hdw & [-> | (frac & Hkf & Hdf & ->)]).
    + rewrite !(formatAmount_whole whole Hkw Hdw). reflexivity.
    + rewrite (formatAmount_fraction whole frac Hkw Hdw Hkf Hdf).
      destruct (Htrunc frac Hkf Hdf) as [Hkt Hdt].
      apply Hfixed; try assumption. apply Hshort.
  - intros whole0 frac0.
    destruct (formatAmount_shape text)
      as (whole & Hkw & Hdw & [-> | (frac & Hkf & Hdf & ->)]).
    + rewrite (formatAmount_whole whole Hkw Hdw).
      rewrite (split_single "." whole Hdw). discriminate.
    + rewrite (formatAmount_fraction whole frac Hkw Hdw Hkf Hdf).
      destruct (Htrunc frac Hkf Hdf) as [Hkt Hdt].
      rewrite (split_append "." whole _ Hdw), (split_single "." _ Hdt).
      intro Heq. injection Heq as _ <-. apply Hshort.
  - intro Hparts.
    pose proof (split_parts keeps "." (clean text) (allChars_clean text))
      as Hkeep.
    pose proof (split_no_separator "." (clean text)) as Hdot.
    pose proof (split_not_nil "." (clean text)) as Hne.
    unfold formatAmount at 2 3. cbn zeta.
    destruct (JS.split "." (clean text)) as [|p0 [|p1 [|p2 rest]]] eqn:Hsplit;
      [contradiction| | |cbn [List.length] in Hparts; lia].
    + inversion Hkeep as [|? ? Hk0 _]; inversion Hdot as [|? ? Hd0 _]; subst.
      pose proof (join_split "." (clean text)) as Hjoin.
      rewrite Hsplit in Hjoin. cbn in Hjoin.
      cbn. rewrite <- Hjoin. apply formatAmount_whole; assumption.
    + inversion Hkeep as [|? ? Hk0 Hk]; inversion Hk as [|? ? Hk1 _];
        inversion Hdot as [|? ? Hd0 Hd]; inversion Hd as [|? ? Hd1 _]; subst.
      pose proof (join_split "." (clean text)) as Hjoin.
      rewrite Hsplit in Hjoin. cbn in Hjoin.
      cbn [List.length JS.element nth Z.of_nat].
      change (2 <? Z.of_nat 2) with false.
      change (Z.of_nat 2 =? 2) with true. cbn [andb].
      destruct (Z.ltb_spec 2 (Z.of_nat (String.length p1))) as [Hl | Hl].
      * cbn [append]. apply Hfixed; try assumption;
          try (apply allChars_substring; assumption).
        apply length_substring.
      * rewrite <- Hjoin. apply Hfixed; try assumption. lia.
Qed.

End Amount.

(** ** Returning and not returning *)

Section Returning.
Import BudgetCalculator.





(** X20.  A key whose month is not a number, such as NaN-NaN, is its own
    previous month.  When the collection holds, first under such a key, a
    record with rollover enabled, neither the carry-in nor the summary of
    that key returns, whatever the bound on nested calls: in the code the
    recursion does not end. *)
Theorem self_predecessor_never_returns
    (env : DateEnv) (transactions : list Transaction.t)
    (budgets : list MonthlyBudget.t) (k : string) (b : MonthlyBudget.t) :
  getPreviousMonth k = k ->
  findBudget budgets k = Some b ->
  MonthlyBudget.rollover_enabled b = true ->
  forall fuel defaultBudgetAmount,
    calculateRolloverAmount env fuel transactions budgets k = None
    /\ calculateBudgetSummary env fuel k transactions budgets
         defaultBudgetAmount = None
    /\ recalculateWithRolloverChange env fuel k transactions budgets true
         defaultBudgetAmount = None.
Proof.
  intros Hself Hfind Hon.
  assert (Hcarry : forall (bs : list MonthlyBudget.t) (b0 : MonthlyBudget.t),
            findBudget bs k = Some b0 ->
            MonthlyBudget.rollover_enabled b0 = true ->
            forall fuel,
              calculateRolloverAmount env fuel transactions bs k = None).
  { intros bs b0 Hb0 Hon0. induction fuel as [|fuel IH]; [reflexivity|].
    rewrite calculateRolloverAmount_step, Hself, Hb0, Hon0, IH.
    reflexivity. }
  intros fuel defaultBudgetAmount. split; [|split].
  - exact (Hcarry budgets b Hfind Hon fuel).
  - unfold calculateBudgetSummary.
    rewrite Hfind, Hon, (Hcarry budgets b Hfind Hon fuel). reflexivity.
  - unfold recalculateWithRolloverChange, calculateBudgetSummary.
    rewrite findBudget_map_same, Hfind. cbn [option_map].
    cbn [withRollover MonthlyBudget.rollover_enabled].
    rewrite (Hcarry _ (withRollover b true)
               ltac:(rewrite findBudget_map_same, Hfind; reflexivity)
               eq_refl fuel).
    reflexivity.
Qed.

Lemma self_predecessor_never_returns_witness :
  (getPreviousMonth "NaN-NaN" = "NaN-NaN"
   /\ findBudget Sample.notAMonth "NaN-NaN"
      = Some (Sample.budget "NaN-NaN" 100000 true))
  /\ forall fuel,
       calculateBudgetSummary Sample.dev fuel "NaN-NaN" Sample.transactions
         Sample.notAMonth 100000 = None.
Proof.
  split; [split; reflexivity|].
  intro fuel.
  exact (proj1 (proj2 (self_predecessor_never_returns Sample.dev
                         Sample.transactions Sample.notAMonth "NaN-NaN"
                         (Sample.budget "NaN-NaN" 100000 true)
                         eq_refl eq_refl eq_refl fuel 100000))).
Defined.

End Returning.

Section InvalidDates.
Import MonthNavigation.

Lemma sort_all_invalid (env : DateEnv) (l : list Transaction.t) :
  (forall t, In t l -> parse env (Transaction.timestamp t) = None) ->
  sort (byTimestamp env) l = l.
Proof.
  induction l as [|x l IH]; intro Hinvalid; [reflexivity|].
  change (sort (byTimestamp env) (x :: l))
    with (insertSorted (byTimestamp env) x (sort (byTimestamp env) l)).
  rewrite IH by (intros t Ht; apply Hinvalid; right; exact Ht).
  destruct l as [|y l']; [reflexivity|].
  cbn [insertSorted]. unfold byTimestamp, Date.getTime, Date.ofString.
  rewrite (Hinvalid x (or_introl eq_refl)). reflexivity.
Qed.

(** X21.  When no transaction of a non-empty list has a valid timestamp,
    [getFirstTrackedMonth] returns the key NaN-NaN, which [getPreviousMonth]
    and [getNextMonth] map to itself and which is not a well-formed key. *)
Theorem getFirstTrackedMonth_without_valid_date
    (env : DateEnv) (transactions : list Transaction.t) :
  transactions <> [] ->
  (forall t, In t transactions ->
             parse env (Transaction.timestamp t) = None) ->
  getFirstTrackedMonth env transactions = "NaN-NaN"
  /\ getPreviousMonth (getFirstTrackedMonth env transactions)
     = getFirstTrackedMonth env transactions
  /\ getNextMonth (getFirstTrackedMonth env transactions)
     = getFirstTrackedMonth env transactions
  /\ MonthKey.wellFormed (getFirstTrackedMonth env transactions) = false.
Proof.
  intros Hne Hinvalid.
  assert (Hkey : getFirstTrackedMonth env transactions = "NaN-NaN").
  { unfold getFirstTrackedMonth.
    rewrite (sort_all_invalid env transactions Hinvalid).
    destruct transactions as [|t l]; [contradiction|].
    replace (0 <? Z.of_nat (Datatypes.length (t :: l))) with true
      by (symmetry; apply Z.ltb_lt; simpl Datatypes.length; lia).
    unfold Date.ofString. rewrite (Hinvalid t (or_introl eq_refl)).
    reflexivity. }
  rewrite Hkey. repeat split.
Qed.

Lemma getFirstTrackedMonth_without_valid_date_witness :
  parse Sample.dev "yesterday" = None
  /\ getFirstTrackedMonth Sample.dev [Sample.tx "withdraw" 999 "yesterday"]
     = "NaN-NaN".
Proof.
  split; [reflexivity|].
  refine (proj1 (getFirstTrackedMonth_without_valid_date Sample.dev
                   [Sample.tx "withdraw" 999 "yesterday"] _ _)).
  - discriminate.
  - intros t [<- | []]. reflexivity.
Defined.

End InvalidDates.
